(** * vmcloak: the command pipeline of [vmcloak/main.py]

    A shallow embedding of the commands of [main.py] ([clone], [init],
    [install], [modify], [snapshot], [export]; [register], which does
    not touch images, with the call it ends in as a parameter) together
    with the properties of the image life cycle that the specification
    states about them, and further properties of the commands.

    The repository (the SQLAlchemy session), the hypervisor (the
    [VirtualBox] object), the guest agent, the file system and the
    dependency installers are collaborators of [main.py]: every call to
    one of them is recorded as an [event] of a trace, in program order,
    and, the reads of the repository apart, may raise according to an
    oracle, in which case the exception propagates as in Python. *)

From Stdlib Require Import ZArith String Ascii List Bool Lia.
From stdpp Require Import base option list strings gmap.

Local Open Scope string_scope.
Local Open Scope Z_scope.
Local Open Scope list_scope.

(** ** Python strings *)

Module PyStr.

(** [c in s] for a one-character needle. *)
Fixpoint contains (c : ascii) (s : string) : bool :=
  match s with
  | EmptyString => false
  | String a s' => Ascii.eqb a c || contains c s'
  end.

(** The text before and after the first occurrence of [c]. *)
Fixpoint cut (c : ascii) (s : string) : option (string * string) :=
  match s with
  | EmptyString => None
  | String a s' =>
      if Ascii.eqb a c then Some (EmptyString, s')
      else match cut c s' with
           | Some (l, r) => Some (String a l, r)
           | None => None
           end
  end.

(** [s.split(c, 1)] *)
Definition split1 (c : ascii) (s : string) : list string :=
  match cut c s with
  | Some (l, r) => [l; r]
  | None => [s]
  end.

(** [s.split(c)] *)
Fixpoint split (c : ascii) (s : string) : list string :=
  match s with
  | EmptyString => [EmptyString]
  | String a s' =>
      if Ascii.eqb a c then EmptyString :: split c s'
      else match split c s' with
           | h :: t => String a h :: t
           | [] => [String a EmptyString]
           end
  end.

(** The characters [str.strip()] removes: blank, and \t \n \v \f \r. *)
Definition is_space (a : ascii) : bool :=
  let n := nat_of_ascii a in
  (Nat.eqb n 32 || (Nat.leb 9 n && Nat.leb n 13))%bool.

Fixpoint lstrip (s : string) : string :=
  match s with
  | EmptyString => EmptyString
  | String a s' => if is_space a then lstrip s' else s
  end.

Fixpoint rstrip (s : string) : string :=
  match s with
  | EmptyString => EmptyString
  | String a s' =>
      match rstrip s' with
      | EmptyString => if is_space a then EmptyString else String a EmptyString
      | r => String a r
      end
  end.

(** [s.strip()] *)
Definition strip (s : string) : string := rstrip (lstrip s).

(** [s.startswith(p)] *)
Fixpoint startswith (p s : string) : bool :=
  match p, s with
  | EmptyString, _ => true
  | String _ _, EmptyString => false
  | String a p', String b s' => Ascii.eqb a b && startswith p' s'
  end.

(** [s.endswith(p)] *)
Definition endswith (p s : string) : bool :=
  let n := String.length s in
  let m := String.length p in
  (Nat.leb m n && String.eqb (String.substring (n - m) m s) p)%bool.

(** [s.endswith((p1, p2, ...))] *)
Definition endswith_any (ps : list string) (s : string) : bool :=
  existsb (fun p => endswith p s) ps.

(** [posixpath.join(a, b)] *)
Definition path_join (a b : string) : string :=
  if startswith "/" b then b
  else if (String.eqb a "" || endswith "/" a)%bool then a +:+ b
  else a +:+ "/" +:+ b.

End PyStr.

(** Truth value of an optional string ([None] and [""] are false). *)
Definition truthy_str (o : option string) : bool :=
  match o with
  | Some s => negb (String.eqb s "")
  | None => false
  end.

(** [x or d] on an optional integer option of the command line. *)
Definition or_int (x : option Z) (d : Z) : Z :=
  match x with
  | Some v => if Z.eqb v 0 then d else v
  | None => d
  end.

(** [x or d] on an optional string option of the command line. *)
Definition or_str (x : option string) (d : string) : string :=
  match x with
  | Some v => if String.eqb v "" then d else v
  | None => d
  end.

(** ** The repository records

    [Image] and [Snapshot] are declared in [vmcloak/repository.py]; their
    columns are the keyword arguments [main.py] constructs them with, and
    the primary key [id], which is [None] until the row is inserted. *)

Module Repository.

Record Image := mkImage {
id : option nat;
name : string;
path : string;
osversion : string;
servicepack : string;
mode : string;
ipaddr : string;
port : Z;
adapter : string;
netmask : string;
gateway : string;
cpus : Z;
ramsize : Z
}.

Record Snapshot := mkSnapshot {
snapshot_id : option nat;
image_id : option nat;
vmname : string;
snapshot_ipaddr : string;
snapshot_port : Z;
hostname : string
}.

Definition set_id (i : option nat) (x : Image) : Image :=
mkImage i (name x) (path x) (osversion x) (servicepack x) (mode x)
        (ipaddr x) (port x) (adapter x) (netmask x) (gateway x)
        (cpus x) (ramsize x).

Definition set_mode (m : string) (x : Image) : Image :=
mkImage (id x) (name x) (path x) (osversion x) (servicepack x) m
        (ipaddr x) (port x) (adapter x) (netmask x) (gateway x)
        (cpus x) (ramsize x).

Definition set_name (n : string) (x : Image) : Image :=
mkImage (id x) n (path x) (osversion x) (servicepack x) (mode x)
        (ipaddr x) (port x) (adapter x) (netmask x) (gateway x)
        (cpus x) (ramsize x).

Definition set_path (p : string) (x : Image) : Image :=
mkImage (id x) (name x) p (osversion x) (servicepack x) (mode x)
        (ipaddr x) (port x) (adapter x) (netmask x) (gateway x)
        (cpus x) (ramsize x).

Definition set_snapshot_id (i : option nat) (s : Snapshot) : Snapshot :=
mkSnapshot i (image_id s) (vmname s) (snapshot_ipaddr s) (snapshot_port s)
           (hostname s).

End Repository.

Import Repository.

(** ** Python values that reach the dependency list of [install]

    The list [dependencies] of [install] holds what the first loop appends
    to it, pairs [(dependency, version)], while the loop variable ranges
    over the elements of that same list; an element is therefore a string
    or a pair whose first component is again such a value. *)

Inductive pyval :=
| PyStr (s : string)
| PyTuple (d : pyval) (version : option string).

Definition pyval_is (s : string) (v : pyval) : bool :=
  match v with
  | PyStr t => String.eqb t s
  | PyTuple _ _ => false
  end.

(** [c in v]: substring test on a string, membership on a pair. *)
Definition py_in (c : ascii) (v : pyval) : bool :=
  match v with
  | PyStr s => PyStr.contains c s
  | PyTuple d version =>
      (pyval_is (String c EmptyString) d
       || match version with
          | Some s => String.eqb s (String c EmptyString)
          | None => false
          end)%bool
  end.

(** ** The dependency registry

    [vmcloak.dependencies.names] maps a name to an installer class; the
    only attribute [main.py] reads is [depends]: nothing, one name, or a
    list of names, each optionally followed by [:version]. *)

Inductive depends_attr :=
| DependsNone
| DependsStr (s : string)
| DependsList (l : list string).

Record Dependency := mkDependency {
  depends : depends_attr
}.

(** [if d.depends:] *)
Definition depends_truthy (d : depends_attr) : bool :=
  match d with
  | DependsNone => false
  | DependsStr s => negb (String.eqb s "")
  | DependsList l => match l with [] => false | _ => true end
  end.

(** [depends = [depends]] when it is a string. *)
Definition depends_list (d : depends_attr) : list string :=
  match d with
  | DependsNone => []
  | DependsStr s => [s]
  | DependsList l => l
  end.

(** ** The OS handlers

    [WindowsXP], [Windows7x86], ... are defined outside [main.py], which
    reads four attributes of an instance. *)

Inductive os_class :=
| WindowsXP | Windows7x86 | Windows7x64
| Windows81x86 | Windows81x64 | Windows10x86 | Windows10x64.

Record Handler := mkHandler {
  mount : string;
  interface : string;
  nictype : string;
  service_pack : string        (* the text of ["%s" % h.service_pack] *)
}.

(** ** Collaborator calls

    Building the objects ([Session()], [VirtualBox(name=..)],
    [Agent(ipaddr, port)], an OS handler) calls nothing and is not
    recorded; the method calls on them are. *)

(** Methods of the [VirtualBox] object [m]. *)
Inductive vm_call :=
| CreateVm
| OsType (osversion : string)
| Cpus (count : Z)
| Mouse (kind : string)
| Ramsize (megabytes : Z)
| CreateHd (path : string)
| AttachHd (path : string) (multi : bool)
| AttachIso (path : string)
| DetachIso
| Hostonly (nictype adapter : string)
| StartVm (visible : bool)
| WaitForState            (* [m.wait_for_state(shutdown=True)] *)
| RemoveHd
| CompactHd (path : string)
| DeleteVm
| CloneHd (src dst : string)
| TakeSnapshot (label description : string)
| StopVm
| ExportVm (filepath : string).

(** Methods of the [Agent] object [a]. *)
Inductive agent_call :=
| Ping
| Shutdown
| Reboot
| Kill
| SetHostname (hostname : string)
| SetResolution (width height : string)
| Remove (path : string)
| StaticIp (ipaddr netmask gateway interface : string).

(** A value of the [settings] dictionary that [init] writes out. *)
Inductive setting :=
| SettingStr (s : string)
| SettingInt (z : Z).

Inductive event :=
| QueryImage (name : string)        (* [session.query(Image).filter_by(name=..).first()] *)
| Commit                            (* [session.commit()] *)
| Vm (vmname : option string) (c : vm_call)
| AgentCall (ipaddr : string) (port : Z) (c : agent_call)
| WaitForHost (ipaddr : string) (port : Z)
| Sleep (seconds : Z)
| RunDependency (dependency : string) (version : option string)
                (settings : gmap string string)
| IsDir (path : string)
| ListDir (path : string)
| SetSerialKey (h : os_class) (serial_key : option string)
| Configure (h : os_class) (tempdir : string) (product : option string)
| Mkdtemp (dir : string)
| Mkdir (path : string)
| WriteSettings (path : string) (settings : gmap string setting)
| Download (osversion : string)
| CopyFile (src dst : string)
| BuildIso (h : os_class) (mount iso_path bootstrap tempdir : string)
| Rmtree (path : string)
| Unlink (path : string).

(** Calls on the logger, with the format string and its arguments. *)
Inductive log_entry :=
| LogSetLevelDebug
| LogError (fmt : string) (args : list pyval)
| LogInfo (fmt : string) (args : list pyval).

Inductive exn :=
| DependencyError
| KeyError (key : string)
| UnboundLocalError (variable : string)
| ValueError
| AttributeError
| ExternalError.          (* any other exception out of a collaborator *)

(** ** The world and the command monad *)

Record World := mkWorld {
  images : list Image;
  snapshots : list Snapshot;
  trace : list event;
  logged : list log_entry
}.

(** How a command stops short of returning. *)
Inductive abort :=
| Exit (code : Z)         (* [exit(code)] *)
| Raised (e : exn)        (* an uncaught exception *)
| OutOfFuel.              (* a loop that did not finish within the fuel *)

Inductive result (A : Type) :=
| Ok (a : A)
| Abort (x : abort).

Arguments Ok {A} a.
Arguments Abort {A} x.

Definition M (A : Type) : Type := World -> result A * World.

#[global] Instance M_ret : MRet M := fun A a w => (Ok a, w).

#[global] Instance M_bind : MBind M := fun A B f m w =>
  match m w with
  | (Ok a, w') => f a w'
  | (Abort x, w') => (Abort x, w')
  end.

Definition exit {A} (code : Z) : M A := fun w => (Abort (Exit code), w).
Definition raise {A} (e : exn) : M A := fun w => (Abort (Raised e), w).
Definition out_of_fuel {A} : M A := fun w => (Abort OutOfFuel, w).

Definition add_event (e : event) (w : World) : World :=
  mkWorld (images w) (snapshots w) (trace w ++ [e]) (logged w).

Definition add_log (l : log_entry) (w : World) : World :=
  mkWorld (images w) (snapshots w) (trace w) (logged w ++ [l]).

Definition set_images (l : list Image) (w : World) : World :=
  mkWorld l (snapshots w) (trace w) (logged w).

Definition set_snapshots (l : list Snapshot) (w : World) : World :=
  mkWorld (images w) l (trace w) (logged w).

Definition gets {A} (f : World -> A) : M A := fun w => (Ok (f w), w).
Definition change (f : World -> World) : M unit := fun w => (Ok tt, f w).

Definition log_error (fmt : string) (args : list pyval) : M unit :=
  change (add_log (LogError fmt args)).

Definition log_info (fmt : string) (args : list pyval) : M unit :=
  change (add_log (LogInfo fmt args)).

Definition log_set_level_debug : M unit :=
  change (add_log LogSetLevelDebug).

(** [try: body except DependencyError: handler] *)
Definition try_except_DependencyError {A} (body handler : M A) : M A :=
  fun w =>
    match body w with
    | (Abort (Raised DependencyError), w') => handler w'
    | r => r
    end.

(** ** Repository operations *)

Definition find_by_name (n : string) (l : list Image) : option Image :=
  List.find (fun i => String.eqb (name i) n) l.

Definition opt_nat_eqb (a b : option nat) : bool :=
  match a, b with
  | Some x, Some y => Nat.eqb x y
  | None, None => true
  | _, _ => false
  end.

(** Modelled from the spec: a created record has an identity of its own
    (section 3, "identity"); the table of [vmcloak/repository.py] is not
    part of [main.py]. The primary key the next inserted row receives is
    the successor of the largest key of the table. *)
Definition next_id (ids : list (option nat)) : nat :=
  S (fold_right (fun o acc => match o with Some n => Nat.max n acc | None => acc end)
                0%nat ids).

(** [UPDATE image SET ... WHERE id = image.id] *)
Definition update_row (x : Image) (l : list Image) : list Image :=
  List.map (fun r => if opt_nat_eqb (id r) (id x) then x else r) l.

(** [INSERT INTO image ...] *)
Definition insert_row (x : Image) (l : list Image) : list Image :=
  l ++ [set_id (Some (next_id (List.map id l))) x].

Definition insert_snapshot (s : Snapshot) (l : list Snapshot) : list Snapshot :=
  l ++ [set_snapshot_id (Some (next_id (List.map snapshot_id l))) s].

(** ** The environment of a run

    What [main.py] imports and cannot decide itself: module constants and
    registries, and the outcome of each collaborator call. A call is
    identified by its position in the trace. *)

Record Env := mkEnv {
  image_path : string;                       (* [vmcloak.repository.image_path] *)
  names : gmap string Dependency;            (* [vmcloak.dependencies.names] *)
  handler : os_class -> Handler;
  raises : nat -> bool;                      (* the call at this position raises *)
  dependency_error : nat -> bool;            (* the installer run at this position
                                                raises [DependencyError] *)
  isdir : string -> bool;                    (* [os.path.isdir] *)
  listdir_nonempty : string -> bool;         (* truth value of [os.listdir] *)
  serial_key_ok : os_class -> option string -> bool;   (* [h.set_serial_key] *)
  buildiso_ok : bool;                        (* [h.buildiso] *)
  mkdtemp : string -> string;                (* [tempfile.mkdtemp(dir=..)] *)
  python27_filepath : string                 (* [Python27(..).filepath] *)
}.

Section Commands.

Context (env : Env).

(** A collaborator call: recorded, then it returns or raises. *)
Definition call (e : event) : M unit := fun w =>
  let k := length (trace w) in
  if raises env k then (Abort (Raised ExternalError), add_event e w)
  else (Ok tt, add_event e w).

(** A read of the tables: recorded, never raises. *)
Definition record (e : event) : M unit := change (add_event e).

(** [cls(h, m, a, image, version, settings).run()] *)
Definition run_dependency (dependency : string) (version : option string)
           (settings : gmap string string) : M unit := fun w =>
  let k := length (trace w) in
  let w' := add_event (RunDependency dependency version settings) w in
  if dependency_error env k then (Abort (Raised DependencyError), w')
  else if raises env k then (Abort (Raised ExternalError), w')
  else (Ok tt, w').

Definition query_image (n : string) : M (option Image) :=
  record (QueryImage n);;
  gets (fun w => find_by_name n (images w)).

(** [session.commit()] with the pending change of the session; a commit
    that raises (a constraint of the schema, a lost connection) leaves
    the tables as they were. *)
Definition commit (pending : World -> World) : M unit :=
  call Commit;;
  change pending.

Definition commit_update (x : Image) : M unit :=
  commit (fun w => set_images (update_row x (images w)) w).

Definition commit_add_image (x : Image) : M unit :=
  commit (fun w => set_images (insert_row x (images w)) w).

Definition commit_add_snapshot (s : Snapshot) : M unit :=
  commit (fun w => set_snapshots (insert_snapshot s (snapshots w)) w).

(** A method call on [m = VirtualBox(name=n)]. *)
Definition vbox (n : option string) (c : vm_call) : M unit := call (Vm n c).

(** A method call on [a = Agent(ipaddr, port)]. *)
Definition agent (x : Image) (c : agent_call) : M unit :=
  call (AgentCall (ipaddr x) (port x) c).

Definition wait_for_host (ip : string) (p : Z) : M unit :=
  call (WaitForHost ip p).

(** The [if image.osversion == ...: h = ...] chain; [h] stays unbound
    when no branch matches. *)
Definition handler_of_osversion (v : string) : option os_class :=
  if String.eqb v "winxp" then Some WindowsXP
  else if String.eqb v "win7x86" then Some Windows7x86
  else if String.eqb v "win7x64" then Some Windows7x64
  else if String.eqb v "win81x86" then Some Windows81x86
  else if String.eqb v "win81x64" then Some Windows81x64
  else if String.eqb v "win10x86" then Some Windows10x86
  else if String.eqb v "win10x64" then Some Windows10x64
  else None.

(** Reading the local [h]. *)
Definition read_h (h : option os_class) : M Handler :=
  match h with
  | Some c => mret (handler env c)
  | None => raise (UnboundLocalError "h")
  end.


(** *** [clone] (lines 38-59) *)

Definition clone (name outname : string) : M unit :=
  image ← query_image name;
  match image with
  | None => log_error "Image not found: %s" [PyStr name];; exit 1
  | Some image =>
      let outpath := PyStr.path_join (image_path env) (outname +:+ ".vdi") in
      vbox None (CloneHd (path image) outpath);;
      (* Retain all fields but update the mode, name & path;
         [make_transient] detaches the object from its row. *)
      let image := set_id None image in
      let image := set_mode "normal" image in
      let image := set_name outname image in
      let image := set_path outpath image in
      commit_add_image image
  end.

(** *** [init] (lines 87-217) *)

(** The chain of [if winxp: ... elif win7x86: ...]: the handler, the
    [osversion] tag and the resolved ram size. *)
Definition select_os (winxp win7x86 win7x64 win81x86 win81x64 win10x86
                      win10x64 : bool) (ramsize : option Z)
  : option (os_class * string * Z) :=
  if winxp then Some (WindowsXP, "winxp", or_int ramsize 1024)
  else if win7x86 then Some (Windows7x86, "win7x86", or_int ramsize 1024)
  else if win7x64 then Some (Windows7x64, "win7x64", or_int ramsize 2048)
  else if win81x86 then Some (Windows81x86, "win81x86", or_int ramsize 2048)
  else if win81x64 then Some (Windows81x64, "win81x64", or_int ramsize 2048)
  else if win10x86 then Some (Windows10x86, "win10x86", or_int ramsize 2048)
  else if win10x64 then Some (Windows10x64, "win10x64", or_int ramsize 2048)
  else None.

(** [w, h = resolution.split("x")] *)
Definition split_resolution (resolution : string) : M (string * string) :=
  match PyStr.split "x" resolution with
  | [w; h] => mret (w, h)
  | _ => raise ValueError
  end.

Definition init (name : string)
           (winxp win7x86 win7x64 win81x86 win81x64 win10x86 win10x64 : bool)
           (product : option string) (vm : string)
           (iso_mount serial_key : option string)
           (ip : string) (port : Z) (adapter netmask gateway dns : string)
           (cpus : Z) (ramsize : option Z) (tempdir resolution : string)
           (vm_visible debug verbose : bool) : M unit :=
  (if verbose then log_set_level_debug else mret tt);;
  image ← query_image name;
  match image with
  | Some _ => log_error "Image already exists: %s" [PyStr name];; exit 1
  | None =>
  if negb (String.eqb vm "virtualbox") then
    log_error "Only the VirtualBox Machinery is supported at this point." [];;
    exit 1
  else
  match select_os winxp win7x86 win7x64 win81x86 win81x64 win10x86 win10x64
                  ramsize with
  | None =>
      log_error ("Please provide one of --winxp, --win7x86, --win7x64, "
                 +:+ "--win81x86, --win81x64, --win10x86, --win10x64.") [];;
      exit 1
  | Some (h, osversion, ramsize) =>
  let mnt := or_str iso_mount (mount (handler env h)) in
  let no_iso : M unit :=
    log_error ("Please specify --iso-mount to a directory containing the "
               +:+ "mounted Windows Installer ISO image.") [];;
    log_info "Refer to the documentation on mounting an .iso image." [];;
    exit 1 in
  call (IsDir mnt);;
  if negb (isdir env mnt) then no_iso else
  call (ListDir mnt);;
  if negb (listdir_nonempty env mnt) then no_iso else
  call (SetSerialKey h serial_key);;
  if negb (serial_key_ok env h serial_key) then exit 1 else
  call (Configure h tempdir product);;
  '(reso_width, reso_height) ← split_resolution resolution;
  let settings : gmap string setting :=
    list_to_map
      [("GUEST_IP", SettingStr ip);
       ("AGENT_PORT", SettingInt port);
       ("GUEST_MASK", SettingStr netmask);
       ("GUEST_GATEWAY", SettingStr gateway);
       ("DNSSERVER", SettingStr dns);
       ("DEBUG", SettingStr (if debug then "yes" else "no"));
       ("RESO_WIDTH", SettingStr reso_width);
       ("RESO_HEIGHT", SettingStr reso_height);
       ("INTERFACE", SettingStr (interface (handler env h)))] in
  call (Mkdtemp tempdir);;
  let bootstrap := mkdtemp env tempdir in
  let vmcloak_dir := PyStr.path_join bootstrap "vmcloak" in
  call (Mkdir vmcloak_dir);;
  call (WriteSettings (PyStr.path_join vmcloak_dir "settings.bat") settings);;
  call (Download osversion);;
  call (CopyFile (python27_filepath env) vmcloak_dir);;
  let iso_path := PyStr.path_join tempdir (name +:+ ".iso") in
  let hdd_path := PyStr.path_join (image_path env) (name +:+ ".vdi") in
  let m := Some name in
  call (BuildIso h mnt iso_path bootstrap tempdir);;
  if negb (buildiso_ok env) then call (Rmtree bootstrap);; exit 1 else
  call (Rmtree bootstrap);;
  vbox m CreateVm;;
  vbox m (OsType osversion);;
  vbox m (Cpus cpus);;
  vbox m (Mouse "usbtablet");;
  vbox m (Ramsize ramsize);;
  vbox m (CreateHd hdd_path);;
  vbox m (AttachIso iso_path);;
  vbox m (Hostonly (nictype (handler env h)) adapter);;
  log_info "Starting the Virtual Machine %r to install Windows." [PyStr name];;
  vbox m (StartVm vm_visible);;
  vbox m WaitForState;;
  vbox m DetachIso;;
  call (Unlink iso_path);;
  vbox m RemoveHd;;
  vbox m (CompactHd hdd_path);;
  vbox m DeleteVm;;
  log_info "Added image %r to the repository." [PyStr name];;
  commit_add_image
    (mkImage None name hdd_path osversion (service_pack (handler env h))
             "normal" ip port adapter netmask gateway cpus ramsize)
  end
  end.

(** *** [install] (lines 223-328) *)

(** [key, value = s.split(c, 1)] *)
Definition split_pair (c : ascii) (s : string) : M (string * string) :=
  match PyStr.split1 c s with
  | [l; r] => mret (l, r)
  | _ => raise ValueError
  end.

(** [v.split(c, 1)] on a value of the list: a pair has no [split]. *)
Definition py_split_pair (c : ascii) (v : pyval) : M (string * string) :=
  match v with
  | PyStr s => split_pair c s
  | PyTuple _ _ => raise AttributeError
  end.

(** Lines 273-281, [for dependency in dependencies: ...]. The loop
    appends to the list it iterates over, so it is a loop on the index
    [i] into the current [dependencies]; it ends when the index runs
    off the list. *)
Fixpoint fetch_settings (fuel i : nat) (settings : gmap string string)
         (dependencies : list pyval)
  : M (gmap string string * list pyval) :=
  match fuel with
  | O => out_of_fuel
  | S fuel =>
      match dependencies !! i with
      | None => mret (settings, dependencies)
      | Some dependency =>
          if (py_in "." dependency && py_in "=" dependency)%bool then
            '(key, value) ← py_split_pair "=" dependency;
            fetch_settings fuel (S i)
              (<[PyStr.strip key := PyStr.strip value]> settings)
              dependencies
          else if py_in ":" dependency then
            '(dependency, version) ← py_split_pair ":" dependency;
            fetch_settings fuel (S i) settings
              (dependencies ++ [PyTuple (PyStr dependency) (Some version)])
          else
            fetch_settings fuel (S i) settings
              (dependencies ++ [PyTuple dependency None])
      end
  end.

(** [for dependency, version in dependencies]: unpacking an element. *)
Definition unpack_pair (v : pyval) : M (pyval * option string) :=
  match v with
  | PyTuple d version => mret (d, version)
  | PyStr (String a (String b EmptyString)) =>
      mret (PyStr (String a EmptyString), Some (String b EmptyString))
  | PyStr _ => raise ValueError
  end.

(** [vmcloak.dependencies.names] indexed by a value of the list. *)
Definition lookup_name (v : pyval) : option (string * Dependency) :=
  match v with
  | PyStr s => match names env !! s with
               | Some d => Some (s, d)
               | None => None
               end
  | PyTuple _ _ => None
  end.

(** Lines 301-309, [for depend in depends: ...]. *)
Fixpoint install_children (settings : gmap string string)
         (depends : list string) : M unit :=
  match depends with
  | [] => mret tt
  | depend :: rest =>
      '(depend, dversion) ←
        (if PyStr.contains ":" depend then
           '(depend, dversion) ← split_pair ":" depend;
           mret (depend, Some dversion)
         else mret (depend, None));
      (* install dependency child before dependency itself *)
      match names env !! depend with
      | None => raise (KeyError depend)
      | Some dd =>
          run_dependency depend dversion settings;;
          install_children settings rest
      end
  end.

(** Lines 312-316: reboot the VM between the children and the parent. *)
Definition reboot_vm (m : option string) (image : Image)
           (vm_visible : bool) : M unit :=
  agent image Shutdown;;
  vbox m WaitForState;;
  call (Sleep 1);;
  vbox m (StartVm vm_visible);;
  wait_for_host (ipaddr image) (port image).

Definition version_arg (version : option string) : list pyval :=
  match version with
  | Some v => [PyStr v]
  | None => []
  end.

(** Lines 283-321, [for dependency, version in dependencies: ...]. The
    body yields [true] to go on with the next element and [false] for
    [break]. *)
Fixpoint install_dependencies (m : option string) (image : Image)
         (vm_visible : bool) (settings : gmap string string)
         (dependencies : list pyval) : M unit :=
  match dependencies with
  | [] => mret tt
  | x :: rest =>
      '(dependency, version) ← unpack_pair x;
      match lookup_name dependency with
      | None => log_error "Unknown dependency %s.." [dependency]
      | Some (dependency, d) =>
          (if truthy_str version then
             log_info "Installing dependency %s %s.."
                      (PyStr dependency :: version_arg version)
           else
             log_info "Installing dependency %s.." [PyStr dependency]);;
          go_on ← try_except_DependencyError
            ((* check if there are any "childs" for dependencies *)
             (if depends_truthy (depends d) then
                install_children settings (depends_list (depends d));;
                reboot_vm m image vm_visible
              else mret tt);;
             run_dependency dependency version settings;;
             mret true)
            (log_error "The dependency %s returned an error.."
                       [PyStr dependency];;
             mret false);
          if go_on : bool then
            install_dependencies m image vm_visible settings rest
          else mret tt
      end
  end.

Definition install (fuel : nat) (name : string) (dependencies : list string)
           (vm_visible : bool) : M unit :=
  image ← query_image name;
  match image with
  | None => log_error "Image not found: %s" [PyStr name];; exit 1
  | Some image =>
  if negb (String.eqb (mode image) "normal") then
    log_error ("You can't install dependencies in this image as you have "
               +:+ "already made snapshots with it!") [];;
    log_error "Please vmcloak-clone it and update the clone." [];;
    exit 1
  else
  let m := Some name in
  let h := handler_of_osversion (osversion image) in
  vbox m CreateVm;;
  vbox m (OsType (osversion image));;
  vbox m (Cpus (cpus image));;
  vbox m (Mouse "usbtablet");;
  vbox m (Ramsize (ramsize image));;
  vbox m (AttachHd (path image) false);;
  (* Ensure the slot is at least allocated for by an empty drive. *)
  vbox m DetachIso;;
  hh ← read_h h;
  vbox m (Hostonly (nictype hh) (adapter image));;
  vbox m (StartVm vm_visible);;
  wait_for_host (ipaddr image) (port image);;
  agent image Ping;;
  let settings : gmap string string := ∅ in
  let dependencies : list pyval := [] in       (* line 270 *)
  (* First we fetch the configuration settings off of the arguments. *)
  '(settings, dependencies) ← fetch_settings fuel 0 settings dependencies;
  install_dependencies m image vm_visible settings dependencies;;
  agent image Shutdown;;
  vbox m WaitForState;;
  vbox m RemoveHd;;
  vbox m (CompactHd (path image));;
  vbox m DeleteVm
  end.

(** *** [modify] (lines 333-382) *)

Definition modify (name : string) (vm_visible : bool) : M unit :=
  image ← query_image name;
  match image with
  | None => log_error "Image not found: %s" [PyStr name];; exit 1
  | Some image =>
  if negb (String.eqb (mode image) "normal") then
    log_error ("You can't modify this image as you have already made "
               +:+ "snapshots with it!") [];;
    log_error "Please vmcloak-clone it and modify the clone." [];;
    exit 1
  else
  let m := Some name in
  let h := handler_of_osversion (osversion image) in
  vbox m CreateVm;;
  vbox m (OsType (osversion image));;
  vbox m (Cpus (cpus image));;
  vbox m (Mouse "usbtablet");;
  vbox m (Ramsize (ramsize image));;
  vbox m (AttachHd (path image) false);;
  vbox m DetachIso;;
  hh ← read_h h;
  vbox m (Hostonly (nictype hh) (adapter image));;
  vbox m (StartVm vm_visible);;
  wait_for_host (ipaddr image) (port image);;
  log_info "The Virtual Machine has booted and is ready to be modified!" [];;
  log_info "When you shut it down, all changes will be saved." [];;
  vbox m WaitForState;;
  vbox m RemoveHd;;
  vbox m (CompactHd (path image));;
  vbox m DeleteVm
  end.

(** *** [snapshot] (lines 410-477) *)

Definition snapshot (name vmname ipaddr : string)
           (resolution : option string) (ramsize cpus : option Z)
           (hostname : string) (adapter : option string)
           (vm_visible : bool) : M unit :=
  image ← query_image name;
  match image with
  | None => log_error "Image not found: %s" [PyStr name];; exit 1
  | Some image =>
  let m := Some vmname in
  let h := handler_of_osversion (osversion image) in
  (* From now on this image is multiattach. *)
  let image := set_mode "multiattach" image in
  commit_update image;;
  vbox m CreateVm;;
  vbox m (OsType (osversion image));;
  vbox m (Cpus (or_int cpus (Repository.cpus image)));;
  vbox m (Mouse "usbtablet");;
  vbox m (Ramsize (or_int ramsize (Repository.ramsize image)));;
  vbox m (AttachHd (path image) true);;
  hh ← read_h h;
  vbox m (Hostonly (nictype hh) (or_str adapter (Repository.adapter image)));;
  vbox m (StartVm vm_visible);;
  wait_for_host (Repository.ipaddr image) (port image);;
  agent image Ping;;
  (* Assign a new hostname. *)
  agent image (SetHostname hostname);;
  agent image Reboot;;
  agent image Kill;;
  (* Wait for the reboot to kick in. *)
  call (Sleep 10);;
  wait_for_host (Repository.ipaddr image) (port image);;
  agent image Ping;;
  (match resolution with
   | Some r =>
       if truthy_str resolution then
         '(width, height) ← split_resolution r;
         agent image (SetResolution width height)
       else mret tt
   | None => mret tt
   end);;
  agent image (Remove "C:\vmcloak");;
  hh ← read_h h;
  agent image (StaticIp ipaddr (netmask image) (gateway image) (interface hh));;
  vbox m (TakeSnapshot "vmcloak" "Snapshot created by VM Cloak.");;
  vbox m StopVm;;
  (* Create a database entry for this snapshot. *)
  commit_add_snapshot
    (mkSnapshot None (id image) vmname ipaddr (port image) hostname)
  end.

(** *** [export] (lines 482-530) *)

Definition export (name filepath : string) : M unit :=
  if negb (PyStr.endswith_any [".ova"; ".ovf"] filepath) then
    log_error "The exported file should be either .ova or .ovf" [];;
    exit 1
  else
  image ← query_image name;
  match image with
  | None => log_error "Image not found: %s" [PyStr name];; exit 1
  | Some image =>
  if negb (String.eqb (mode image) "normal") then
    log_error ("You can't export this image as you have already made "
               +:+ "snapshots with it!") [];;
    log_error "Please vmcloak clone it and modify the clone." [];;
    exit 1
  else
  let h := handler_of_osversion (osversion image) in
  let m := Some name in
  vbox m CreateVm;;
  vbox m (OsType (osversion image));;
  vbox m (Cpus (cpus image));;
  vbox m (Mouse "usbtablet");;
  vbox m (Ramsize (ramsize image));;
  vbox m (AttachHd (path image) false);;
  vbox m DetachIso;;
  hh ← read_h h;
  vbox m (Hostonly (nictype hh) (adapter image));;
  vbox m (ExportVm filepath);;
  vbox m RemoveHd;;
  vbox m (CompactHd (path image));;
  vbox m DeleteVm
  end.

End Commands.

(** ** A concrete installation, used to run the commands *)

Module Sample.

Definition win7 : Handler :=
  mkHandler "/mnt/win7" "Local Area Connection" "82540EM" "1".

(** A registry in which [B] declares the children [C] and [D] (the
    latter at version 1) and [X] is unknown. *)
Definition registry : gmap string Dependency :=
  list_to_map
    [("A", mkDependency DependsNone);
     ("B", mkDependency (DependsList ["C"; "D:1"]));
     ("C", mkDependency DependsNone);
     ("D", mkDependency DependsNone)].

(** Every collaborator call succeeds. *)
Definition env : Env :=
  mkEnv "/vmcloak/image" registry (fun _ => win7)
        (fun _ => false) (fun _ => false)
        (fun _ => true) (fun _ => true) (fun _ _ => true) true
        (fun d => d +:+ "/tmpAbCdEf") "/vmcloak/deps/python-2.7.6.msi".

Definition base : Image :=
  mkImage (Some 1%nat) "base" "/vmcloak/image/base.vdi" "win7x64" "1"
          "normal" "192.168.56.2" 8000 "vboxnet0" "255.255.255.0"
          "192.168.56.1" 1 2048.

Definition frozen : Image :=
  mkImage (Some 2%nat) "frozen" "/vmcloak/image/frozen.vdi" "win7x64" "1"
          "multiattach" "192.168.56.2" 8000 "vboxnet0" "255.255.255.0"
          "192.168.56.1" 1 2048.

Definition frozen_snapshot : Snapshot :=
  mkSnapshot (Some 1%nat) (Some 2%nat) "cuckoo1" "192.168.56.101" 8000
             "desk-01".

Definition world : World :=
  mkWorld [base; frozen] [frozen_snapshot] [] [].

End Sample.

(** ** Reasoning about commands *)

(** A relation between the world before and after that holds however the
    computation ends. *)
Definition preserves {A} (R : World -> World -> Prop) (m : M A) : Prop :=
  forall w, R w (m w).2.

(** A relation that reflexivity, transitivity, and the recording of a
    log entry or of an event among [P] maintain: what a command cannot
    break by talking to its collaborators. *)
Class Frame (P : event -> Prop) (R : World -> World -> Prop) : Prop := {
  frame_refl : forall w, R w w;
  frame_trans : forall w1 w2 w3, R w1 w2 -> R w2 w3 -> R w1 w3;
  frame_event : forall e w, P e -> R w (add_event e w);
  frame_log : forall l w, R w (add_log l w)
}.

Definition any_event (e : event) : Prop := True.

(** ** The life cycle of the [mode] column *)

Inductive command :=
| CmdClone (name outname : string)
| CmdInit (name : string)
          (winxp win7x86 win7x64 win81x86 win81x64 win10x86 win10x64 : bool)
          (product : option string) (vm : string)
          (iso_mount serial_key : option string)
          (ip : string) (port : Z) (adapter netmask gateway dns : string)
          (cpus : Z) (ramsize : option Z) (tempdir resolution : string)
          (vm_visible debug verbose : bool)
| CmdInstall (fuel : nat) (name : string) (dependencies : list string)
             (vm_visible : bool)
| CmdModify (name : string) (vm_visible : bool)
| CmdSnapshot (name vmname ipaddr : string) (resolution : option string)
              (ramsize cpus : option Z) (hostname : string)
              (adapter : option string) (vm_visible : bool)
| CmdExport (name filepath : string).

Definition run (env : Env) (c : command) : M unit :=
  match c with
  | CmdClone name outname => clone env name outname
  | CmdInit name winxp win7x86 win7x64 win81x86 win81x64 win10x86 win10x64
            product vm iso_mount serial_key ip port adapter netmask gateway
            dns cpus ramsize tempdir resolution vm_visible debug verbose =>
      init env name winxp win7x86 win7x64 win81x86 win81x64 win10x86 win10x64
           product vm iso_mount serial_key ip port adapter netmask gateway
           dns cpus ramsize tempdir resolution vm_visible debug verbose
  | CmdInstall fuel name dependencies vm_visible =>
      install env fuel name dependencies vm_visible
  | CmdModify name vm_visible => modify env name vm_visible
  | CmdSnapshot name vmname ipaddr resolution ramsize cpus hostname adapter
                vm_visible =>
      snapshot env name vmname ipaddr resolution ramsize cpus hostname adapter
               vm_visible
  | CmdExport name filepath => export env name filepath
  end.

(** A sequence of invocations, each in the environment it finds, on the
    world the previous one left, however that one ended. *)
Fixpoint run_all (cs : list (Env * command)) (w : World) : World :=
  match cs with
  | [] => w
  | (env, c) :: rest => run_all rest (run env c w).2
  end.

(** The row [y] that stands where [x] stood: the same identity, and a
    mode that is the one of [x] or ["multiattach"]. *)
Definition row_kept (x y : Image) : Prop :=
  id y = id x /\ (mode y = mode x \/ mode y = "multiattach").

Definition mode_monotone (w w' : World) : Prop :=
  forall (k : nat) (x : Image),
    images w !! k = Some x ->
    exists y, images w' !! k = Some y /\ row_kept x y.

(** ** Rejections

    A command turns a request down by logging an error and calling
    [exit(1)]; the logged text tells the errors apart. *)

Definition export_suffix_error : log_entry :=
  LogError "The exported file should be either .ova or .ovf" [].

Definition locked_install : list log_entry :=
  [LogError ("You can't install dependencies in this image as you have "
             +:+ "already made snapshots with it!") [];
   LogError "Please vmcloak-clone it and update the clone." []].

Definition locked_modify : list log_entry :=
  [LogError ("You can't modify this image as you have already made "
             +:+ "snapshots with it!") [];
   LogError "Please vmcloak-clone it and modify the clone." []].

Definition locked_export : list log_entry :=
  [LogError ("You can't export this image as you have already made "
             +:+ "snapshots with it!") [];
   LogError "Please vmcloak clone it and modify the clone." []].

(** The outcome [out] of a command run in [w] is the rejection of a
    locked image: exit status 1, the messages [msgs] logged, nothing done
    but the lookup of the image, no table changed. *)
Definition rejected_locked (msgs : list log_entry) (name : string) (w : World)
           (out : result unit * World) : Prop :=
  out.1 = Abort (Exit 1)
  /\ logged out.2 = logged w ++ msgs
  /\ trace out.2 = trace w ++ [QueryImage name]
  /\ images out.2 = images w
  /\ snapshots out.2 = snapshots w.

(** ** What [snapshot] leaves behind *)

(** The tables are the same and the trace has grown. *)
Definition same_tables (w w' : World) : Prop :=
  images w' = images w
  /\ snapshots w' = snapshots w
  /\ exists evs, trace w' = trace w ++ evs.


(** ** What [clone] produces *)

(** No collaborator call raises. *)
Definition no_faults (env : Env) : Prop :=
  (forall k, raises env k = false) /\ (forall k, dependency_error env k = false).

(** The columns [clone] retains. *)
Definition same_columns (src new : Image) : Prop :=
  osversion new = osversion src
  /\ servicepack new = servicepack src
  /\ ipaddr new = ipaddr src
  /\ port new = port src
  /\ adapter new = adapter src
  /\ netmask new = netmask src
  /\ gateway new = gateway src
  /\ cpus new = cpus src
  /\ ramsize new = ramsize src.

(** The specification's [cloneRecord], said of the command: one new row,
    with an identity no other row has, mode ["normal"], the new name, a
    disk path other than the source's, and the other columns of the
    source. *)
Definition clone_as_specified (env : Env) (name outname : string) (w : World)
           (src : Image) : Prop :=
  exists new,
    images (clone env name outname w).2 = images w ++ [new]
    /\ (forall r, r ∈ images w -> id r <> id new)
    /\ mode new = "normal"
    /\ Repository.name new = outname
    /\ path new <> path src
    /\ same_columns src new.

(** ** What [install] asks of the dependency installers *)

(** An event other than the run of a dependency installer. *)
Definition no_run (e : event) : Prop :=
  match e with
  | RunDependency _ _ _ => False
  | _ => True
  end.

(** The trace has grown by events among [P]. *)
Definition grows_by (P : event -> Prop) (w w' : World) : Prop :=
  exists evs, trace w' = trace w ++ evs /\ Forall P evs.

(** The events of a trace that are runs of installers, in order. *)
Fixpoint runs (t : list event) : list (string * option string) :=
  match t with
  | [] => []
  | RunDependency d v _ :: t' => (d, v) :: runs t'
  | _ :: t' => runs t'
  end.

(** The reference a declared child stands for: [name] or [name:version]. *)
Definition child_ref (depend : string) : string * option string :=
  match PyStr.cut ":" depend with
  | Some (l, r) => (l, Some r)
  | None => (depend, None)
  end.

(** The world after the events [evs], in order. *)
Definition add_events (evs : list event) (w : World) : World :=
  fold_left (fun w e => add_event e w) evs w.

(** ** The reboot between the children and their parent *)

(** Where the dependency loop stands with respect to the guest. *)
Inductive phase :=
| GuestUp             (* the agent can be called *)
| AfterShutdown       (* [a.shutdown()] was issued *)
| AfterPowerOff       (* [m.wait_for_state(shutdown=True)] returned *)
| AfterSleep          (* [time.sleep(1)] returned *)
| AfterStart          (* [m.start_vm(..)] returned *)
| Reconnected.        (* [wait_for_host(..)] returned *)

(** The order of events lines 283-321 follow: installers run while the
    guest is up; a shutdown is followed by the wait for power-off, the
    pause, the start, the wait for the host, and then by an installer. *)
Definition loop_step (q : phase) (e : event) : option phase :=
  match q, e with
  | GuestUp, RunDependency _ _ _ => Some GuestUp
  | GuestUp, AgentCall _ _ Shutdown => Some AfterShutdown
  | AfterShutdown, Vm _ WaitForState => Some AfterPowerOff
  | AfterPowerOff, Sleep _ => Some AfterSleep
  | AfterSleep, Vm _ (StartVm _) => Some AfterStart
  | AfterStart, WaitForHost _ _ => Some Reconnected
  | Reconnected, RunDependency _ _ _ => Some GuestUp
  | _, _ => None
  end.


(** The phase a trace leads to, if every event is in order. *)
Fixpoint run_protocol (step : phase -> event -> option phase) (q : phase)
         (t : list event) : option phase :=
  match t with
  | [] => Some q
  | e :: t' =>
      match step q e with
      | Some q' => run_protocol step q' t'
      | None => None
      end
  end.

(** [m], started in phase [q], adds events that [loop_step] accepts, and
    ends with an outcome and in a phase that satisfy [Q]. *)
Definition follows {A} (q : phase) (Q : result A -> phase -> Prop) (m : M A)
  : Prop :=
  forall w, exists evs q',
    trace (m w).2 = trace w ++ evs
    /\ run_protocol loop_step q evs = Some q'
    /\ Q (m w).1 q'.

(** When the computation returns, the phase is [q0]. *)
Definition returns_in {A} (q0 : phase) (r : result A) (q : phase) : Prop :=
  match r with
  | Ok _ => q = q0
  | Abort _ => True
  end.

(** After the body of the loop says to go on, the guest is up. *)
Definition goes_on_up (r : result bool) (q : phase) : Prop :=
  match r with
  | Ok true => q = GuestUp
  | _ => True
  end.

(** ** Further properties of the commands: definitions *)

(** The outcome [out] of a command run in [w] is the rejection of a name
    the repository does not hold: exit status 1, the message logged,
    nothing done but the lookup, no table changed. *)
Definition rejected_not_found (name : string) (w : World)
           (out : result unit * World) : Prop :=
  out.1 = Abort (Exit 1)
  /\ logged out.2 = logged w ++ [LogError "Image not found: %s" [PyStr name]]
  /\ trace out.2 = trace w ++ [QueryImage name]
  /\ images out.2 = images w
  /\ snapshots out.2 = snapshots w.

(** The [if]/[elif] chain of lines 104-131 as it is written: the flag
    each branch tests and the handler class it instantiates, in order. *)
Definition elif_chain
           (winxp win7x86 win7x64 win81x86 win81x64 win10x86 win10x64 : bool)
  : list (bool * os_class) :=
  [(winxp, WindowsXP);
   (win7x86, Windows7x86);
   (win7x64, Windows7x64);
   (win81x86, Windows81x86);
   (win81x64, Windows81x64);
   (win10x86, Windows10x86);
   (win10x64, Windows10x64)].

(** What [log.setLevel] adds to the log when [init] is verbose. *)
Definition verbose_log (verbose : bool) : list log_entry :=
  if verbose then [LogSetLevelDebug] else [].


(** [m] relates the world it starts in to its outcome and the world it
    leaves by [Q]. *)
Definition ensures {A} (Q : World -> result A -> World -> Prop) (m : M A)
  : Prop :=
  forall w, Q w (m w).1 (m w).2.

(** The image table gained one row that satisfies [good] and the command
    returned, or the command did not return and the table is as it was;
    the snapshot table is as it was. *)
Definition row_iff_returned (good : Image -> Prop) (w : World)
           (r : result unit) (w' : World) : Prop :=
  snapshots w' = snapshots w
  /\ ((r = Ok tt
       /\ exists img, images w' = images w ++ [img]
                      /\ id img = Some (next_id (List.map id (images w)))
                      /\ good img)
      \/ (r <> Ok tt /\ images w' = images w)).

(** A row as [init] and [clone] make it: the given name, mode
    ["normal"], the disk [image_path/<name>.vdi]. *)
Definition fresh_row (env : Env) (name : string) (img : Image) : Prop :=
  Repository.name img = name
  /\ mode img = "normal"
  /\ path img = PyStr.path_join (image_path env) (name +:+ ".vdi").

(** A row [init] makes: a fresh row whose [osversion] the other commands
    have a handler for. *)
Definition built_row (env : Env) (name : string) (img : Image) : Prop :=
  fresh_row env name img /\ is_Some (handler_of_osversion (osversion img)).

(** The snapshot table gained the row [s] and the command returned, or
    the command did not return and the table is as it was; the image
    table is as it was. *)
Definition snapshot_iff_returned (s : Snapshot) (w : World) (r : result unit)
           (w' : World) : Prop :=
  images w' = images w
  /\ ((r = Ok tt /\ snapshots w' = insert_snapshot s (snapshots w))
      \/ (r <> Ok tt /\ snapshots w' = snapshots w)).

(** An event other than [m.delete_vm()]. *)
Definition not_delete (e : event) : Prop :=
  match e with
  | Vm _ DeleteVm => False
  | _ => True
  end.

(** Among the events added, [delete_vm] is the last one or is missing,
    and it is missing only when the command did not return. *)
Definition deleted_last (w : World) (r : result unit) (w' : World) : Prop :=
  exists pre,
    Forall not_delete pre
    /\ ((trace w' = trace w ++ pre /\ r <> Ok tt)
        \/ exists n, trace w' = trace w ++ pre ++ [Vm n DeleteVm]).

(** An event that leaves the guest alone: no start of the VM, no wait
    for the host, no agent call, no installer, no pause. *)
Definition offline (e : event) : Prop :=
  match e with
  | Vm _ (StartVm _) | WaitForHost _ _ | AgentCall _ _ _
  | RunDependency _ _ _ | Sleep _ => False
  | _ => True
  end.

(** An event other than an agent call or the run of an installer. *)
Definition no_agent (e : event) : Prop :=
  match e with
  | AgentCall _ _ _ | RunDependency _ _ _ => False
  | _ => True
  end.

(** An event other than the attachment of a disk in the mode [multi]. *)
Definition not_attached (multi : bool) (e : event) : Prop :=
  match e with
  | Vm _ (AttachHd _ b) => b <> multi
  | _ => True
  end.

(** An event of the set-up of a VM up to its disk: the lookup, a commit,
    and the hypervisor calls that come before [m.hostonly]. *)
Definition before_network (e : event) : Prop :=
  match e with
  | QueryImage _ | Commit => True
  | Vm _ (CreateVm | OsType _ | Cpus _ | Mouse _ | Ramsize _ | AttachHd _ _
         | DetachIso) => True
  | _ => False
  end.

(** The command did not return, and the events it added are among [P]. *)
Definition stopped_within (P : event -> Prop) (w : World) (r : result unit)
           (w' : World) : Prop :=
  r <> Ok tt /\ grows_by P w w'.

(** A row whose [osversion] the chain of the commands does not know,
    as an edit of the repository by hand can leave one. *)
Definition vista : Image :=
  mkImage (Some 1%nat) "vista" "/vmcloak/image/vista.vdi" "vista" "2"
          "normal" "192.168.56.3" 8000 "vboxnet0" "255.255.255.0"
          "192.168.56.1" 1 1024.

Definition vista_world : World := mkWorld [vista] [] [] [].

(** The hypervisor calls that set a VM up to its disk, with the number
    of processors and the memory it is given. *)
Definition set_up (m : option string) (image : Image) (cpus ramsize : Z)
           (multi : bool) : list event :=
  [Vm m CreateVm;
   Vm m (OsType (osversion image));
   Vm m (Cpus cpus);
   Vm m (Mouse "usbtablet");
   Vm m (Ramsize ramsize);
   Vm m (AttachHd (path image) multi)].


(** *** [register] (lines 388-398) *)

(** [session.query(Snapshot).filter_by(vmname=..).first()] *)
Definition find_by_vmname (n : string) (l : list Snapshot) : option Snapshot :=
  List.find (fun s => String.eqb (vmname s) n) l.

(** The command ends in a call of [register_cuckoo], which [main.py]
    imports from [vmcloak.misc]: the command is given it as
    [register_cuckoo], and whatever that call does is the rest of the
    run. The lookup reads the snapshot table and changes nothing. *)
Definition register
           (register_cuckoo : string -> string -> string -> string -> M unit)
           (vmname cuckoo tags : string) : M unit :=
  found ← gets (fun w => find_by_vmname vmname (snapshots w));
  match found with
  | None => log_error "Snapshot not found: %s" [PyStr vmname];; exit 1
  | Some found => register_cuckoo (snapshot_ipaddr found) tags vmname cuckoo
  end.

(** What the loop of lines 273-281 takes for a setting and leaves out of
    the list: a string with a ["."] and a ["="] in it. *)
Definition is_setting (v : pyval) : bool :=
  match v with
  | PyStr s => PyStr.contains "." s && PyStr.contains "=" s
  | PyTuple _ _ => false
  end.

(** *** The dependency loop (lines 283-321) on a list of references *)

(** The element of the list for a reference [(dependency, version)]. *)
Definition reference (ref : string * option string) : pyval :=
  PyTuple (PyStr ref.1) ref.2.

(** The entry logged before a dependency is installed. *)
Definition announce (ref : string * option string) : log_entry :=
  if truthy_str ref.2
  then LogInfo "Installing dependency %s %s.." (PyStr ref.1 :: version_arg ref.2)
  else LogInfo "Installing dependency %s.." [PyStr ref.1].

(** The children a dependency declares, as references; none when its
    [depends] is not truthy. *)
Definition children (d : Dependency) : list string :=
  if depends_truthy (depends d) then depends_list (depends d) else [].

(** The registry knows the dependency and the children it declares. *)
Definition known (env : Env) (ref : string * option string) : Prop :=
  exists d, names env !! ref.1 = Some d
            /\ Forall (fun c => is_Some (names env !! (child_ref c).1))
                      (children d).

(** The installers to run for a reference, in order: the children it
    declares, then the dependency itself. *)
Definition planned (env : Env) (ref : string * option string)
  : list (string * option string) :=
  match names env !! ref.1 with
  | Some d => List.map child_ref (children d) ++ [ref]
  | None => []
  end.

(** The events of one round of the loop that goes well. *)
Definition round (env : Env) (m : option string) (image : Image)
           (vm_visible : bool) (settings : gmap string string)
           (ref : string * option string) : list event :=
  match names env !! ref.1 with
  | Some d =>
      (if depends_truthy (depends d) then
         List.map (fun c => RunDependency (child_ref c).1 (child_ref c).2
                                          settings)
                  (depends_list (depends d))
         ++ [AgentCall (ipaddr image) (port image) Shutdown;
             Vm m WaitForState;
             Sleep 1;
             Vm m (StartVm vm_visible);
             WaitForHost (ipaddr image) (port image)]
       else [])
      ++ [RunDependency ref.1 ref.2 settings]
  | None => []
  end.


(** An event of the preparation of [init]: anything but a hypervisor
    call or a commit. *)
Definition preparation (e : event) : Prop :=
  match e with
  | Vm _ _ | Commit => False
  | _ => True
  end.

(** ** Lemmas of the calculus *)

Lemma bind_eval {A B} (m : M A) (f : A -> M B) (w : World) :
  (m ≫= f) w = match m w with
                | (Ok a, w') => f a w'
                | (Abort x, w') => (Abort x, w')
                end.
Proof. reflexivity. Qed.

(** The string functions on the inputs the commands meet. *)

Example split_resolution_example :
  PyStr.split "x" "1024x768" = ["1024"; "768"]
  /\ PyStr.split "x" "1024" = ["1024"]
  /\ PyStr.split "x" "1x2x3" = ["1"; "2"; "3"].
Proof. repeat split; reflexivity. Qed.

Example split1_example :
  PyStr.split1 "=" "office.version = 2010=x" = ["office.version "; " 2010=x"]
  /\ PyStr.split1 ":" "dotnet:4.5" = ["dotnet"; "4.5"]
  /\ PyStr.split1 ":" "dotnet" = ["dotnet"].
Proof. repeat split; reflexivity. Qed.

Example strip_example :
  PyStr.strip "  office.version " = "office.version"
  /\ PyStr.strip "a b" = "a b"
  /\ PyStr.strip "   " = "".
Proof. repeat split; reflexivity. Qed.

Example endswith_example :
  PyStr.endswith_any [".ova"; ".ovf"] "win7.ova" = true
  /\ PyStr.endswith_any [".ova"; ".ovf"] "win7.ovf" = true
  /\ PyStr.endswith_any [".ova"; ".ovf"] "win7.vdi" = false
  /\ PyStr.endswith_any [".ova"; ".ovf"] "ova" = false.
Proof. repeat split; reflexivity. Qed.

Example path_join_example :
  PyStr.path_join "/vmcloak/image" "base.vdi" = "/vmcloak/image/base.vdi"
  /\ PyStr.path_join "/vmcloak/image/" "base.vdi" = "/vmcloak/image/base.vdi"
  /\ PyStr.path_join "/vmcloak/image" "/tmp/base.vdi" = "/tmp/base.vdi".
Proof. repeat split; reflexivity. Qed.

Lemma string_length_append (a b : string) :
  String.length (a +:+ b) = (String.length a + String.length b)%nat.
Proof. induction a as [|c a IH]; simpl; [reflexivity | rewrite IH; reflexivity]. Qed.

Lemma substring_all s : String.substring 0 (String.length s) s = s.
Proof. induction s as [|a s IH]; simpl; [reflexivity | rewrite IH; reflexivity]. Qed.

Lemma substring_split s :
  forall n, (n <= String.length s)%nat ->
    s = String.substring 0 n s
        +:+ String.substring n (String.length s - n) s.
Proof.
  induction s as [|a s IH]; intros [|n] Hn; simpl in *; try lia.
  - reflexivity.
  - rewrite substring_all. reflexivity.
  - change (String a s
            = String a (String.substring 0 n s
                        +:+ String.substring n (String.length s - n) s)).
    f_equal. apply IH. lia.
Qed.

Lemma substring_append pre p m :
  String.substring (String.length pre) m (pre +:+ p) = String.substring 0 m p.
Proof. induction pre as [|a pre IH]; simpl; [reflexivity | exact IH]. Qed.

(** A suffix test that holds is a suffix. *)
Lemma endswith_suffix p s :
  PyStr.endswith p s = true <-> exists pre, s = pre +:+ p.
Proof.
  unfold PyStr.endswith. split.
  - intros H. apply andb_true_iff in H. destruct H as [Hle Heq].
    apply Nat.leb_le in Hle. apply String.eqb_eq in Heq.
    exists (String.substring 0 (String.length s - String.length p) s).
    etransitivity;
      [apply (substring_split s (String.length s - String.length p)); lia|].
    f_equal. etransitivity; [|exact Heq]. f_equal. lia.
  - intros [pre ->]. rewrite string_length_append.
    apply andb_true_iff. split; [apply Nat.leb_le; lia|].
    apply String.eqb_eq.
    replace (String.length pre + String.length p - String.length p)%nat
      with (String.length pre) by lia.
    rewrite substring_append. apply substring_all.
Qed.

Section Preserves.

Context (P : event -> Prop) (R : World -> World -> Prop) `{!Frame P R}.

Lemma preserves_ret {A} (a : A) : preserves R (mret a : M A).
Proof. intros w. apply frame_refl. Qed.

Lemma preserves_exit {A} c : preserves R (exit c : M A).
Proof. intros w. apply frame_refl. Qed.

Lemma preserves_raise {A} e : preserves R (raise e : M A).
Proof. intros w. apply frame_refl. Qed.

Lemma preserves_out_of_fuel {A} : preserves R (out_of_fuel : M A).
Proof. intros w. apply frame_refl. Qed.

Lemma preserves_gets {A} (f : World -> A) : preserves R (gets f).
Proof. intros w. apply frame_refl. Qed.

Lemma preserves_out_of_fuel_bind {A B} (f : A -> M B) :
  preserves R (out_of_fuel ≫= f).
Proof. intros w. apply frame_refl. Qed.

Lemma preserves_bind {A B} (m : M A) (f : A -> M B) :
  preserves R m -> (forall a, preserves R (f a)) -> preserves R (m ≫= f).
Proof.
  intros Hm Hf w. rewrite bind_eval.
  specialize (Hm w). destruct (m w) as [[a|x] w1]; simpl in *; [|assumption].
  eapply frame_trans; [exact Hm | apply Hf].
Qed.

Lemma preserves_try {A} (body handler : M A) :
  preserves R body -> preserves R handler ->
  preserves R (try_except_DependencyError body handler).
Proof.
  intros Hb Hh w. unfold try_except_DependencyError.
  specialize (Hb w). destruct (body w) as [[a|[c|[]|]] w1]; simpl in *;
    try assumption.
  eapply frame_trans; [exact Hb | apply Hh].
Qed.

Lemma preserves_log_error fmt args : preserves R (log_error fmt args).
Proof. intros w. apply frame_log. Qed.

Lemma preserves_log_info fmt args : preserves R (log_info fmt args).
Proof. intros w. apply frame_log. Qed.

Lemma preserves_log_set_level : preserves R log_set_level_debug.
Proof. intros w. apply frame_log. Qed.

Lemma preserves_record e : P e -> preserves R (record e).
Proof. intros He w. apply frame_event, He. Qed.

Lemma preserves_call env e : P e -> preserves R (call env e).
Proof.
  intros He w. unfold call. destruct (raises env _); simpl;
    apply frame_event, He.
Qed.

Lemma preserves_run_dependency env d v s :
  P (RunDependency d v s) -> preserves R (run_dependency env d v s).
Proof.
  intros He w. unfold run_dependency.
  destruct (dependency_error env _); [|destruct (raises env _)]; simpl;
    apply frame_event, He.
Qed.

Lemma preserves_query n : P (QueryImage n) -> preserves R (query_image n).
Proof.
  intros He.
  apply preserves_bind; [apply preserves_record, He | intros; apply preserves_gets].
Qed.

Lemma preserves_commit env pending :
  P Commit -> (forall w, R w (pending w)) -> preserves R (commit env pending).
Proof.
  intros He H.
  apply preserves_bind; [apply preserves_call, He | intros _ w; apply H].
Qed.

End Preserves.

(** A computation that returns at once adds nothing. *)
Lemma preserves_ret_bind {A B} (R : World -> World -> Prop) (a : A)
      (f : A -> M B) :
  preserves R (f a) -> preserves R (mret a ≫= f).
Proof. intros H w. apply H. Qed.

(** One step through a command, whatever the relation. *)
Ltac frame_side :=
  try typeclasses eauto; try solve [exact I | auto].

Ltac preserves_leaf :=
  lazymatch goal with
  | |- preserves _ (mret _) => eapply preserves_ret
  | |- preserves _ (exit _) => eapply preserves_exit
  | |- preserves _ (raise _) => eapply preserves_raise
  | |- preserves _ out_of_fuel => eapply preserves_out_of_fuel
  | |- preserves _ (gets _) => eapply preserves_gets
  | |- preserves _ (log_error _ _) => eapply preserves_log_error
  | |- preserves _ (log_info _ _) => eapply preserves_log_info
  | |- preserves _ log_set_level_debug => eapply preserves_log_set_level
  | |- preserves _ (record _) => eapply preserves_record
  | |- preserves _ (query_image _) => eapply preserves_query
  | |- preserves _ (call _ _) => eapply preserves_call
  | |- preserves _ (run_dependency _ _ _ _) => eapply preserves_run_dependency
  end;
  frame_side.

Ltac preserves_step :=
  lazymatch goal with
  | |- preserves _ (mret _ ≫= _) => apply preserves_ret_bind; cbv beta iota
  | |- preserves _ (out_of_fuel ≫= _) =>
      eapply preserves_out_of_fuel_bind; typeclasses eauto
  | |- preserves _ (_ ≫= _) =>
      eapply preserves_bind; [typeclasses eauto | | intros ?]
  | |- preserves _ (match ?x with _ => _ end) => destruct x
  | |- preserves _ (try_except_DependencyError _ _) =>
      eapply preserves_try; [typeclasses eauto | | ]
  | |- preserves _ (commit_update _ _) =>
      eapply preserves_commit; [typeclasses eauto | frame_side | intros ?]
  | |- preserves _ (commit_add_image _ _) =>
      eapply preserves_commit; [typeclasses eauto | frame_side | intros ?]
  | |- preserves _ (commit_add_snapshot _ _) =>
      eapply preserves_commit; [typeclasses eauto | frame_side | intros ?]
  | |- preserves _ _ => first [ preserves_leaf | assumption ]
  end.

Ltac preserves_auto :=
  repeat first
    [ preserves_step
    | progress unfold vbox, agent, wait_for_host, read_h, split_resolution,
        split_pair, py_split_pair, unpack_pair, reboot_vm ].

Section PreservesLoops.

Context (P : event -> Prop) (R : World -> World -> Prop) `{!Frame P R}.
Context (P_all : forall e, P e) (env : Env).

Lemma preserves_fetch_settings fuel :
  forall i settings dependencies,
    preserves R (fetch_settings fuel i settings dependencies).
Proof.
  induction fuel as [|fuel IH]; intros i settings dependencies; simpl.
  - eapply preserves_out_of_fuel; typeclasses eauto.
  - preserves_auto; apply IH.
Qed.

Lemma preserves_install_children settings depends :
  preserves R (install_children env settings depends).
Proof.
  induction depends as [|depend rest IH]; simpl; preserves_auto.
Qed.

Lemma preserves_install_dependencies m image vm_visible settings dependencies :
  preserves R (install_dependencies env m image vm_visible settings dependencies).
Proof.
  induction dependencies as [|x rest IH]; simpl; preserves_auto;
    apply preserves_install_children.
Qed.

End PreservesLoops.

(** ** The mode of an image never goes back *)

Lemma row_kept_refl x : row_kept x x.
Proof. split; auto. Qed.

Lemma row_kept_trans x y z : row_kept x y -> row_kept y z -> row_kept x z.
Proof.
  intros [Hi1 Hm1] [Hi2 Hm2]. split; [congruence|].
  destruct Hm2 as [Hm2|Hm2]; [rewrite Hm2; assumption | right; assumption].
Qed.

#[global] Instance mode_monotone_frame : Frame any_event mode_monotone.
Proof.
  split.
  - intros w k x H. exists x. split; [assumption | apply row_kept_refl].
  - intros w1 w2 w3 H12 H23 k x H.
    destruct (H12 k x H) as (y & Hy & Hxy).
    destruct (H23 k y Hy) as (z & Hz & Hyz).
    exists z. split; [assumption | eapply row_kept_trans; eassumption].
  - intros e w _ k x H. exists x. split; [assumption | apply row_kept_refl].
  - intros l w k x H. exists x. split; [assumption | apply row_kept_refl].
Qed.

Lemma opt_nat_eqb_eq a b : opt_nat_eqb a b = true -> a = b.
Proof.
  destruct a, b; simpl; try discriminate; auto.
  intros H. apply Nat.eqb_eq in H. congruence.
Qed.

(** The [UPDATE] of [snapshot] moves rows to ["multiattach"] only. *)
Lemma update_row_monotone x w :
  mode x = "multiattach" ->
  mode_monotone w (set_images (update_row x (images w)) w).
Proof.
  intros Hx k r Hr. simpl. unfold update_row.
  rewrite list_lookup_fmap, Hr. simpl.
  destruct (opt_nat_eqb (id r) (id x)) eqn:E.
  - exists x. split; [reflexivity|]. apply opt_nat_eqb_eq in E.
    split; [congruence | right; assumption].
  - exists r. split; [reflexivity | apply row_kept_refl].
Qed.

(** An [INSERT] leaves the rows that exist where they are. *)
Lemma insert_row_monotone x w :
  mode_monotone w (set_images (insert_row x (images w)) w).
Proof.
  intros k r Hr. simpl. unfold insert_row. exists r.
  split; [|apply row_kept_refl].
  rewrite lookup_app_l; [assumption|]. eapply lookup_lt_Some; eassumption.
Qed.

Lemma insert_snapshot_monotone s w :
  mode_monotone w (set_snapshots (insert_snapshot s (snapshots w)) w).
Proof. intros k r Hr. exists r. split; [assumption | apply row_kept_refl]. Qed.

Lemma run_mode_monotone env c : preserves mode_monotone (run env c).
Proof.
  destruct c; simpl.
  - unfold clone. preserves_auto. apply insert_row_monotone.
  - unfold init. preserves_auto. apply insert_row_monotone.
  - unfold install. preserves_auto.
    + eapply preserves_fetch_settings; typeclasses eauto.
    + eapply preserves_install_dependencies;
        [typeclasses eauto | intros; exact I].
  - unfold modify. preserves_auto.
  - unfold snapshot. preserves_auto.
    + apply update_row_monotone. reflexivity.
    + apply insert_snapshot_monotone.
  - unfold export. preserves_auto.
Qed.

Lemma run_all_mode_monotone cs : forall w, mode_monotone w (run_all cs w).
Proof.
  induction cs as [|[env c] rest IH]; intros w; simpl.
  - apply frame_refl.
  - eapply frame_trans; [apply run_mode_monotone | apply IH].
Qed.

(** C1. Whatever sequence of [clone], [init], [install], [modify],
    [snapshot] and [export] invocations runs, and however each of them
    ends, the row that stood at a position of the image table still
    stands there with the same identity, and its mode is the one it had
    or ["multiattach"]; a row that was ["multiattach"] is still
    ["multiattach"]. *)
Theorem mode_never_reverts (cs : list (Env * command)) (w : World)
        (k : nat) (x : Image) :
  images w !! k = Some x ->
  exists y, images (run_all cs w) !! k = Some y
            /\ id y = id x
            /\ (mode y = mode x \/ mode y = "multiattach")
            /\ (mode x = "multiattach" -> mode y = "multiattach").
Proof.
  intros H. destruct (run_all_mode_monotone cs w k x H) as (y & Hy & Hi & Hm).
  exists y. repeat split; try assumption.
  intros Hx. destruct Hm as [Hm|Hm]; congruence.
Qed.

Lemma mode_never_reverts_witness :
  images Sample.world !! 1%nat = Some Sample.frozen
  /\ exists y,
      images (run_all [(Sample.env,
                        CmdSnapshot "base" "cuckoo2" "192.168.56.102" None
                                    None None "desk-02" None false);
                       (Sample.env, CmdClone "frozen" "thawed");
                       (Sample.env, CmdInstall 1 "frozen" ["A"] false)]
                      Sample.world) !! 1%nat = Some y
      /\ id y = id Sample.frozen
      /\ (mode y = mode Sample.frozen \/ mode y = "multiattach")
      /\ (mode Sample.frozen = "multiattach" -> mode y = "multiattach").
Proof.
  split; [reflexivity|].
  apply (mode_never_reverts _ Sample.world 1%nat Sample.frozen). reflexivity.
Defined.

(** ** Rejections *)

Lemma query_image_eval n w :
  query_image n w = (Ok (find_by_name n (images w)), add_event (QueryImage n) w).
Proof. reflexivity. Qed.

Lemma mode_not_normal (img : Image) :
  mode img <> "normal" -> negb (String.eqb (mode img) "normal") = true.
Proof.
  intros H. destruct (String.eqb (mode img) "normal") eqn:E; [|reflexivity].
  apply String.eqb_eq in E. contradiction.
Qed.

(** C10. When the target path ends neither in [.ova] nor in [.ovf],
    [export] logs the error and exits with status 1 at once: the
    repository is not queried, no collaborator is called, and the image
    and snapshot tables are the ones it found. *)
Theorem export_rejects_other_suffix (env : Env) (name filepath : string)
        (w : World) :
  PyStr.endswith_any [".ova"; ".ovf"] filepath = false ->
  (export env name filepath w).1 = Abort (Exit 1)
  /\ trace (export env name filepath w).2 = trace w
  /\ images (export env name filepath w).2 = images w
  /\ snapshots (export env name filepath w).2 = snapshots w
  /\ logged (export env name filepath w).2 = logged w ++ [export_suffix_error].
Proof.
  intros H. unfold export. rewrite H. simpl. repeat split; reflexivity.
Qed.

Lemma export_rejects_other_suffix_witness :
  PyStr.endswith_any [".ova"; ".ovf"] "base.vdi" = false
  /\ (export Sample.env "base" "base.vdi" Sample.world).1 = Abort (Exit 1)
  /\ trace (export Sample.env "base" "base.vdi" Sample.world).2
     = trace Sample.world
  /\ images (export Sample.env "base" "base.vdi" Sample.world).2
     = images Sample.world
  /\ snapshots (export Sample.env "base" "base.vdi" Sample.world).2
     = snapshots Sample.world
  /\ logged (export Sample.env "base" "base.vdi" Sample.world).2
     = logged Sample.world ++ [export_suffix_error].
Proof.
  split; [reflexivity|].
  apply (export_rejects_other_suffix Sample.env "base" "base.vdi" Sample.world).
  reflexivity.
Defined.

(** The claim C2 as the specification words it fails for [export]: with
    a target path that is neither [.ova] nor [.ovf], a locked image is
    turned down for the path, not for being locked. *)
Lemma export_locked_image_other_suffix :
  find_by_name "frozen" (images Sample.world) = Some Sample.frozen
  /\ mode Sample.frozen <> "normal"
  /\ ~ rejected_locked locked_export "frozen" Sample.world
         (export Sample.env "frozen" "frozen.zip" Sample.world).
Proof.
  split; [reflexivity|]. split; [discriminate|].
  intros (_ & Hlog & _). vm_compute in Hlog. discriminate.
Qed.

(** C2, amended. An image whose mode is not ["normal"] is turned down by
    [install] and [modify], and by [export] when the target path ends in
    [.ova] or [.ovf]: the command logs that snapshots were made with the
    image and exits with status 1, having done nothing but look the
    image up; no collaborator was called and no table changed. *)
Theorem locked_image_rejected (env : Env) (w : World) (name : string)
        (img : Image) :
  find_by_name name (images w) = Some img ->
  mode img <> "normal" ->
  (forall fuel dependencies vm_visible,
      rejected_locked locked_install name w
        (install env fuel name dependencies vm_visible w))
  /\ (forall vm_visible,
         rejected_locked locked_modify name w (modify env name vm_visible w))
  /\ (forall filepath,
         PyStr.endswith_any [".ova"; ".ovf"] filepath = true ->
         rejected_locked locked_export name w (export env name filepath w)).
Proof.
  intros Hfind Hmode. apply mode_not_normal in Hmode.
  split; [|split].
  - intros fuel dependencies vm_visible. unfold install.
    rewrite bind_eval, query_image_eval, Hfind, Hmode.
    unfold rejected_locked, mbind, M_bind, log_error, exit, change; simpl.
    rewrite <- app_assoc. repeat split; reflexivity.
  - intros vm_visible. unfold modify.
    rewrite bind_eval, query_image_eval, Hfind, Hmode.
    unfold rejected_locked, mbind, M_bind, log_error, exit, change; simpl.
    rewrite <- app_assoc. repeat split; reflexivity.
  - intros filepath Hsuffix. unfold export. rewrite Hsuffix.
    change (negb true) with false. cbv iota.
    rewrite bind_eval, query_image_eval, Hfind, Hmode.
    unfold rejected_locked, mbind, M_bind, log_error, exit, change; simpl.
    rewrite <- app_assoc. repeat split; reflexivity.
Qed.

Lemma locked_image_rejected_witness :
  find_by_name "frozen" (images Sample.world) = Some Sample.frozen
  /\ mode Sample.frozen <> "normal"
  /\ (forall fuel dependencies vm_visible,
         rejected_locked locked_install "frozen" Sample.world
           (install Sample.env fuel "frozen" dependencies vm_visible
                    Sample.world))
  /\ (forall vm_visible,
         rejected_locked locked_modify "frozen" Sample.world
           (modify Sample.env "frozen" vm_visible Sample.world))
  /\ (forall filepath,
         PyStr.endswith_any [".ova"; ".ovf"] filepath = true ->
         rejected_locked locked_export "frozen" Sample.world
           (export Sample.env "frozen" filepath Sample.world)).
Proof.
  split; [reflexivity|]. split; [discriminate|].
  apply (locked_image_rejected Sample.env Sample.world "frozen" Sample.frozen);
    [reflexivity | discriminate].
Defined.

(** ** [snapshot]: the mode is flipped first *)

#[global] Instance same_tables_frame : Frame any_event same_tables.
Proof.
  split.
  - intros w. repeat split. exists []. symmetry. apply app_nil_r.
  - intros w1 w2 w3 (Hi1 & Hs1 & e1 & Ht1) (Hi2 & Hs2 & e2 & Ht2).
    repeat split; [congruence | congruence |].
    exists (e1 ++ e2). rewrite Ht2, Ht1. symmetry. apply app_assoc.
  - intros e w _. repeat split. exists [e]. reflexivity.
  - intros l w. repeat split. exists []. symmetry. apply app_nil_r.
Qed.




Lemma commit_eval env pending w :
  commit env pending w
  = if raises env (length (trace w))
    then (Abort (Raised ExternalError), add_event Commit w)
    else (Ok tt, pending (add_event Commit w)).
Proof.
  unfold commit. rewrite bind_eval. unfold call.
  destruct (raises env _); reflexivity.
Qed.






(** ** [clone] *)

Lemma call_ok env e w :
  raises env (length (trace w)) = false ->
  call env e w = (Ok tt, add_event e w).
Proof. intros H. unfold call. rewrite H. reflexivity. Qed.

Lemma next_id_bound (l : list (option nat)) (n : nat) :
  Some n ∈ l -> (n < next_id l)%nat.
Proof.
  unfold next_id. induction l as [|o l IH]; intros Hin.
  - apply elem_of_nil in Hin. contradiction.
  - apply elem_of_cons in Hin. simpl. destruct Hin as [<-|Hin].
    + lia.
    + specialize (IH Hin). destruct o; lia.
Qed.

Lemma next_id_fresh (l : list Image) (r : Image) :
  r ∈ l -> id r <> Some (next_id (List.map id l)).
Proof.
  intros Hin Heq.
  assert (H : Some (next_id (List.map id l)) ∈ List.map id l).
  { rewrite <- Heq. apply list_elem_of_In, in_map, list_elem_of_In, Hin. }
  apply next_id_bound in H. lia.
Qed.

Lemma append_cancel_l (a b1 b2 : string) : a +:+ b1 = a +:+ b2 -> b1 = b2.
Proof.
  induction a as [|c a IH]; simpl; intros H; [assumption|].
  injection H as H. auto.
Qed.

Lemma append_cancel_r (s : string) :
  forall x y : string, x +:+ s = y +:+ s -> x = y.
Proof.
  induction x as [|c x IH]; intros [|d y] H; simpl in H.
  - reflexivity.
  - exfalso. apply (f_equal String.length) in H.
    rewrite !string_length_append in H. simpl in H. lia.
  - exfalso. apply (f_equal String.length) in H.
    rewrite !string_length_append in H. simpl in H. lia.
  - injection H as -> H. f_equal. apply IH. assumption.
Qed.

Lemma startswith_slash_append (x : string) :
  PyStr.startswith "/" (x +:+ ".vdi") = PyStr.startswith "/" x.
Proof.
  destruct x as [|c x]; reflexivity.
Qed.

(** Two relative file names under one directory are one path only when
    they are one name. *)
Lemma path_join_relative_inj (a b1 b2 : string) :
  PyStr.startswith "/" b1 = false ->
  PyStr.startswith "/" b2 = false ->
  PyStr.path_join a b1 = PyStr.path_join a b2 -> b1 = b2.
Proof.
  unfold PyStr.path_join. intros -> ->.
  destruct (String.eqb a "" || PyStr.endswith "/" a)%bool; intros H.
  - eapply append_cancel_l; eassumption.
  - apply append_cancel_l in H. injection H as H. assumption.
Qed.

(** The destination of [clone] is the directory of the repository itself
    when the new name is an absolute path: cloning [base] to
    [/vmcloak/image/base] gives the new row the disk path of [base]. *)
Lemma clone_onto_source_path :
  find_by_name "base" (images Sample.world) = Some Sample.base
  /\ no_faults Sample.env
  /\ ~ clone_as_specified Sample.env "base" "/vmcloak/image/base" Sample.world
       Sample.base.
Proof.
  split; [reflexivity|]. split; [split; intros k; reflexivity|].
  intros (new & Himg & _ & _ & _ & Hpath & _).
  vm_compute in Himg. injection Himg as <-. apply Hpath. reflexivity.
Qed.

(** C8, amended. When the hypervisor and the commit do not fail, [clone]
    adds one row and changes no other: the new row has an identity that
    no row had, mode ["normal"], the new name, the disk path
    [image_path/<outname>.vdi] and the remaining columns of the source.
    That path differs from the source's whenever the source's path is
    [image_path/<name>.vdi], neither name starts with a slash and the two
    names differ. *)
Theorem clone_copies_record (env : Env) (name outname : string) (w : World)
        (src : Image) :
  find_by_name name (images w) = Some src ->
  no_faults env ->
  exists new,
    (clone env name outname w).1 = Ok tt
    /\ images (clone env name outname w).2 = images w ++ [new]
    /\ snapshots (clone env name outname w).2 = snapshots w
    /\ (forall r, r ∈ images w -> id r <> id new)
    /\ mode new = "normal"
    /\ Repository.name new = outname
    /\ path new = PyStr.path_join (image_path env) (outname +:+ ".vdi")
    /\ same_columns src new
    /\ (path src = PyStr.path_join (image_path env) (name +:+ ".vdi") ->
        PyStr.startswith "/" name = false ->
        PyStr.startswith "/" outname = false ->
        outname <> name ->
        path new <> path src).
Proof.
  intros Hfind [Hnf _].
  exists (set_id (Some (next_id (List.map id (images w))))
            (set_path (PyStr.path_join (image_path env) (outname +:+ ".vdi"))
               (set_name outname (set_mode "normal" (set_id None src))))).
  unfold clone. rewrite bind_eval, query_image_eval, Hfind. cbv zeta.
  rewrite bind_eval. unfold vbox. rewrite call_ok by apply Hnf.
  unfold commit_add_image. rewrite commit_eval, Hnf. simpl.
  repeat split; try reflexivity.
  - intros r Hr. apply next_id_fresh. assumption.
  - intros Hsrc Hn Ho Hne Heq. rewrite Hsrc in Heq.
    apply path_join_relative_inj in Heq;
      [| rewrite startswith_slash_append; assumption
       | rewrite startswith_slash_append; assumption ].
    apply append_cancel_r in Heq. contradiction.
Qed.

Lemma clone_copies_record_witness :
  find_by_name "base" (images Sample.world) = Some Sample.base
  /\ no_faults Sample.env
  /\ exists new,
      (clone Sample.env "base" "office" Sample.world).1 = Ok tt
      /\ images (clone Sample.env "base" "office" Sample.world).2
         = images Sample.world ++ [new]
      /\ snapshots (clone Sample.env "base" "office" Sample.world).2
         = snapshots Sample.world
      /\ (forall r, r ∈ images Sample.world -> id r <> id new)
      /\ mode new = "normal"
      /\ Repository.name new = "office"
      /\ path new = PyStr.path_join (image_path Sample.env) ("office" +:+ ".vdi")
      /\ same_columns Sample.base new
      /\ (path Sample.base
          = PyStr.path_join (image_path Sample.env) ("base" +:+ ".vdi") ->
          PyStr.startswith "/" "base" = false ->
          PyStr.startswith "/" "office" = false ->
          "office" <> "base" ->
          path new <> path Sample.base).
Proof.
  split; [reflexivity|].
  split; [split; intros k; reflexivity|].
  apply (clone_copies_record Sample.env "base" "office" Sample.world Sample.base);
    [reflexivity | split; intros k; reflexivity].
Defined.

(** ** [init] *)

Lemma change_eval f w : change f w = (Ok tt, f w).
Proof. reflexivity. Qed.

Lemma mret_eval {A} (a : A) w : (mret a : M A) w = (Ok a, w).
Proof. reflexivity. Qed.

Lemma find_by_name_app_new n l x :
  find_by_name n l = None -> Repository.name x = n ->
  find_by_name n (l ++ [x]) = Some x.
Proof.
  unfold find_by_name. intros Hnone Hx.
  induction l as [|r l IH]; simpl in *.
  - rewrite Hx, String.eqb_refl. reflexivity.
  - destruct (String.eqb (Repository.name r) n); [discriminate | auto].
Qed.

(** One collaborator call, log entry or lookup of a run without faults. *)
Ltac run_step Hnf :=
  rewrite bind_eval;
  first
    [ rewrite query_image_eval
    | unfold vbox, agent, wait_for_host; rewrite call_ok by apply Hnf
    | unfold log_error, log_info, log_set_level_debug; rewrite change_eval
    | rewrite mret_eval ];
  cbv beta iota.

(** C9. [init] with the [win7x64] flag and no ram size, on a name the
    repository does not hold, with the installer medium in place and
    collaborators that do not fail, returns, and has added one row: ram
    size 2048, mode ["normal"], the service pack of the Windows 7 64-bit
    handler; a lookup by the name then finds that row. *)
Theorem init_win7x64_default_ram (env : Env) (name : string)
        (win81x86 win81x64 win10x86 win10x64 : bool)
        (product iso_mount serial_key : option string)
        (ip : string) (port : Z) (adapter netmask gateway dns : string)
        (cpus : Z) (tempdir resolution : string)
        (vm_visible debug verbose : bool) (w : World) :
  find_by_name name (images w) = None ->
  no_faults env ->
  isdir env (or_str iso_mount (mount (handler env Windows7x64))) = true ->
  listdir_nonempty env (or_str iso_mount (mount (handler env Windows7x64)))
  = true ->
  serial_key_ok env Windows7x64 serial_key = true ->
  buildiso_ok env = true ->
  length (PyStr.split "x" resolution) = 2%nat ->
  let out :=
    init env name false false true win81x86 win81x64 win10x86 win10x64
         product "virtualbox" iso_mount serial_key ip port adapter netmask
         gateway dns cpus None tempdir resolution vm_visible debug verbose w in
  exists img,
    out.1 = Ok tt
    /\ images out.2 = images w ++ [img]
    /\ ramsize img = 2048
    /\ mode img = "normal"
    /\ servicepack img = service_pack (handler env Windows7x64)
    /\ osversion img = "win7x64"
    /\ Repository.name img = name
    /\ find_by_name name (images out.2) = Some img.
Proof.
  intros Hfind [Hnf _] Hdir Hlist Hkey Hiso Hres out.
  exists (mkImage (Some (next_id (List.map id (images w)))) name
                  (PyStr.path_join (image_path env) (name +:+ ".vdi"))
                  "win7x64" (service_pack (handler env Windows7x64)) "normal"
                  ip port adapter netmask gateway cpus 2048).
  assert (Hout : out.1 = Ok tt
                 /\ images out.2
                    = images w ++
                      [mkImage (Some (next_id (List.map id (images w)))) name
                         (PyStr.path_join (image_path env) (name +:+ ".vdi"))
                         "win7x64" (service_pack (handler env Windows7x64))
                         "normal" ip port adapter netmask gateway cpus 2048]).
  { subst out. unfold init, split_resolution.
    destruct (PyStr.split "x" resolution) as [|rw [|rh [|? ?]]];
      try discriminate Hres.
    rewrite bind_eval.
    replace ((if verbose then log_set_level_debug else mret tt) w)
      with (Ok tt, if verbose then add_log LogSetLevelDebug w else w)
      by (destruct verbose; reflexivity).
    cbv beta iota.
    rewrite bind_eval, query_image_eval.
    replace (images (if verbose then add_log LogSetLevelDebug w else w))
      with (images w) by (destruct verbose; reflexivity).
    rewrite Hfind. cbv beta iota.
    change (negb (String.eqb "virtualbox" "virtualbox")) with false.
    cbv beta iota delta [select_os or_int].
    run_step Hnf. rewrite Hdir. change (negb true) with false. cbv iota.
    run_step Hnf. rewrite Hlist. change (negb true) with false. cbv iota.
    run_step Hnf. rewrite Hkey. change (negb true) with false. cbv iota.
    run_step Hnf. run_step Hnf. cbv zeta.
    do 5 run_step Hnf.
    rewrite Hiso. change (negb true) with false. cbv iota.
    do 19 run_step Hnf.
    unfold commit_add_image. rewrite commit_eval, Hnf.
    split; [reflexivity|]. simpl. destruct verbose; reflexivity. }
  destruct Hout as [Hr Hi]. rewrite Hi.
  repeat split; try assumption; try reflexivity.
  apply find_by_name_app_new; [assumption | reflexivity].
Qed.

Lemma init_win7x64_default_ram_witness :
  find_by_name "office" (images Sample.world) = None
  /\ no_faults Sample.env
  /\ isdir Sample.env
           (or_str None (mount (handler Sample.env Windows7x64))) = true
  /\ listdir_nonempty Sample.env
           (or_str None (mount (handler Sample.env Windows7x64))) = true
  /\ serial_key_ok Sample.env Windows7x64 None = true
  /\ buildiso_ok Sample.env = true
  /\ length (PyStr.split "x" "1024x768") = 2%nat
  /\ let out :=
       init Sample.env "office" false false true false false false false
            None "virtualbox" None None "192.168.56.2" 8000 "vboxnet0"
            "255.255.255.0" "192.168.56.1" "8.8.8.8" 1 None "/tmp" "1024x768"
            false false false Sample.world in
     exists img,
       out.1 = Ok tt
       /\ images out.2 = images Sample.world ++ [img]
       /\ ramsize img = 2048
       /\ mode img = "normal"
       /\ servicepack img = service_pack (handler Sample.env Windows7x64)
       /\ osversion img = "win7x64"
       /\ Repository.name img = "office"
       /\ find_by_name "office" (images out.2) = Some img.
Proof.
  split; [reflexivity|].
  split; [split; intros k; reflexivity|].
  do 5 (split; [reflexivity|]).
  apply (init_win7x64_default_ram Sample.env "office" false false false false
           None None None "192.168.56.2" 8000 "vboxnet0" "255.255.255.0"
           "192.168.56.1" "8.8.8.8" 1 "/tmp" "1024x768" false false false
           Sample.world);
    first [reflexivity | split; intros k; reflexivity].
Defined.

(** ** [install]: the requested dependencies *)

#[global] Instance grows_by_frame P : Frame P (grows_by P).
Proof.
  split.
  - intros w. exists []. split; [symmetry; apply app_nil_r | constructor].
  - intros w1 w2 w3 (e1 & Ht1 & Hp1) (e2 & Ht2 & Hp2).
    exists (e1 ++ e2). split.
    + rewrite Ht2, Ht1. symmetry. apply app_assoc.
    + apply Forall_app. split; assumption.
  - intros e w He. exists [e]. split; [reflexivity|].
    constructor; [assumption | constructor].
  - intros l w. exists []. split; [symmetry; apply app_nil_r | constructor].
Qed.

Lemma install_grows_by_no_run env fuel name dependencies vm_visible :
  preserves (grows_by no_run) (install env fuel name dependencies vm_visible).
Proof.
  unfold install. destruct fuel as [|fuel]; simpl fetch_settings.
  - preserves_auto.
  - preserves_auto. simpl. preserves_auto.
Qed.

(** ** The dependency loop and the reboot protocol *)

Lemma run_protocol_app step q t1 t2 :
  run_protocol step q (t1 ++ t2)
  = match run_protocol step q t1 with
    | Some q1 => run_protocol step q1 t2
    | None => None
    end.
Proof.
  revert q. induction t1 as [|e t1 IH]; intros q; simpl; [reflexivity|].
  destruct (step q e); [apply IH | reflexivity].
Qed.

Section Follows.

Context {A : Type}.

Lemma follows_mono q (Q Q' : result A -> phase -> Prop) (m : M A) :
  (forall r q', Q r q' -> Q' r q') -> follows q Q m -> follows q Q' m.
Proof.
  intros H Hm w. destruct (Hm w) as (evs & q' & Ht & Hr & HQ).
  exists evs, q'. auto.
Qed.

Lemma follows_ret q (Q : result A -> phase -> Prop) (a : A) :
  Q (Ok a) q -> follows q Q (mret a).
Proof.
  intros H w. exists [], q. simpl. rewrite app_nil_r. auto.
Qed.

Lemma follows_raise q (Q : result A -> phase -> Prop) e :
  Q (Abort (Raised e)) q -> follows q Q (raise e).
Proof.
  intros H w. exists [], q. simpl. rewrite app_nil_r. auto.
Qed.

Lemma follows_bind {B} q (Q : result B -> phase -> Prop) (m : M A)
      (f : A -> M B) :
  follows q (fun r q1 => match r with
                         | Ok a => follows q1 Q (f a)
                         | Abort x => Q (Abort x) q1
                         end) m ->
  follows q Q (m ≫= f).
Proof.
  intros Hm w. rewrite bind_eval.
  destruct (Hm w) as (evs & q1 & Ht & Hr & HQ).
  destruct (m w) as [[a|x] w1]; simpl in *.
  - destruct (HQ w1) as (evs2 & q2 & Ht2 & Hr2 & HQ2).
    exists (evs ++ evs2), q2. split; [|split].
    + rewrite Ht2, Ht. symmetry. apply app_assoc.
    + rewrite run_protocol_app, Hr. exact Hr2.
    + exact HQ2.
  - exists evs, q1. auto.
Qed.

Lemma follows_try q (Q : result A -> phase -> Prop) (body handler : M A) :
  follows q (fun r q1 => match r with
                         | Abort (Raised DependencyError) =>
                             follows q1 Q handler
                         | _ => Q r q1
                         end) body ->
  follows q Q (try_except_DependencyError body handler).
Proof.
  intros Hb w. unfold try_except_DependencyError.
  destruct (Hb w) as (evs & q1 & Ht & Hr & HQ).
  destruct (body w) as [[a|[c|[]|]] w1]; simpl in *;
    try (exists evs, q1; auto; fail).
  destruct (HQ w1) as (evs2 & q2 & Ht2 & Hr2 & HQ2).
  exists (evs ++ evs2), q2. split; [|split].
  - rewrite Ht2, Ht. symmetry. apply app_assoc.
  - rewrite run_protocol_app, Hr. exact Hr2.
  - exact HQ2.
Qed.

End Follows.

Lemma follows_log q (Q : result unit -> phase -> Prop) l :
  Q (Ok tt) q -> follows q Q (change (add_log l)).
Proof.
  intros H w. exists [], q. simpl. rewrite app_nil_r. auto.
Qed.

Lemma follows_call env q q1 (Q : result unit -> phase -> Prop) e :
  loop_step q e = Some q1 ->
  Q (Ok tt) q1 -> Q (Abort (Raised ExternalError)) q1 ->
  follows q Q (call env e).
Proof.
  intros Hs Hok Hab w. exists [e], q1. unfold call.
  destruct (raises env _); simpl; rewrite Hs; auto.
Qed.

Lemma follows_run_dependency env q q1 (Q : result unit -> phase -> Prop) d v s :
  loop_step q (RunDependency d v s) = Some q1 ->
  Q (Ok tt) q1 ->
  (forall e, Q (Abort (Raised e)) q1) ->
  follows q Q (run_dependency env d v s).
Proof.
  intros Hs Hok Hab w. exists [RunDependency d v s], q1. unfold run_dependency.
  destruct (dependency_error env _); [|destruct (raises env _)]; simpl;
    rewrite Hs; auto.
Qed.

Lemma follows_install_children env settings depends :
  follows GuestUp (returns_in GuestUp) (install_children env settings depends).
Proof.
  induction depends as [|depend rest IH]; simpl.
  - apply follows_ret. reflexivity.
  - apply follows_bind.
    destruct (PyStr.contains ":" depend).
    + apply follows_bind. unfold split_pair.
      destruct (PyStr.split1 ":" depend) as [|l [|r [|? ?]]];
        try (apply follows_raise; exact I).
      apply follows_ret. apply follows_ret.
      destruct (names env !! l); [|apply follows_raise; exact I].
      apply follows_bind.
      eapply follows_run_dependency; [reflexivity | exact IH | intros; exact I].
    + apply follows_ret.
      destruct (names env !! depend); [|apply follows_raise; exact I].
      apply follows_bind.
      eapply follows_run_dependency; [reflexivity | exact IH | intros; exact I].
Qed.

Lemma follows_reboot_vm env m image vm_visible :
  follows GuestUp (returns_in Reconnected) (reboot_vm env m image vm_visible).
Proof.
  unfold reboot_vm, agent, vbox, wait_for_host.
  repeat (apply follows_bind;
          eapply follows_call; [reflexivity | | exact I]).
  eapply follows_call; [reflexivity | reflexivity | exact I].
Qed.

Lemma follows_loop_body env m image vm_visible settings dependency version d :
  follows GuestUp goes_on_up
    (try_except_DependencyError
       ((if depends_truthy (depends d) then
           install_children env settings (depends_list (depends d));;
           reboot_vm env m image vm_visible
         else mret tt);;
        run_dependency env dependency version settings;;
        mret true)
       (log_error "The dependency %s returned an error.." [PyStr dependency];;
        mret false)).
Proof.
  assert (Hhandler : forall q,
    follows q goes_on_up
      (log_error "The dependency %s returned an error.." [PyStr dependency];;
       mret false)).
  { intros q. apply follows_bind. apply follows_log.
    apply follows_ret. exact I. }
  assert (Hrun : forall q, loop_step q (RunDependency dependency version settings)
                           = Some GuestUp ->
    follows q (fun r q1 => match r with
                           | Abort (Raised DependencyError) =>
                               follows q1 goes_on_up
                                 (log_error
                                    "The dependency %s returned an error.."
                                    [PyStr dependency];; mret false)
                           | _ => goes_on_up r q1
                           end)
      (run_dependency env dependency version settings;; mret true)).
  { intros q Hq. apply follows_bind.
    eapply follows_run_dependency; [exact Hq | |].
    - apply follows_ret. reflexivity.
    - intros [| | | | |]; first [apply Hhandler | exact I]. }
  apply follows_try. apply follows_bind.
  destruct (depends_truthy (depends d)).
  - apply follows_bind.
    eapply follows_mono; [|apply follows_install_children].
    intros [[]|[c|e|]] q Hq; simpl in *;
      try (destruct e; first [apply Hhandler | exact I]); try exact I.
    subst q.
    eapply follows_mono; [|apply follows_reboot_vm].
    intros [[]|[c|e|]] q Hq; simpl in *;
      try (destruct e; first [apply Hhandler | exact I]); try exact I.
    subst q. apply Hrun. reflexivity.
  - apply follows_ret. apply Hrun. reflexivity.
Qed.

Lemma follows_install_dependencies env m image vm_visible settings dependencies :
  follows GuestUp (fun _ _ => True)
    (install_dependencies env m image vm_visible settings dependencies).
Proof.
  induction dependencies as [|x rest IH]; simpl.
  - apply follows_ret. exact I.
  - apply follows_bind.
    assert (Hnext : forall dependency version,
      follows GuestUp (fun _ _ => True)
        (match lookup_name env dependency with
         | Some (dependency0, d) =>
             (if truthy_str version
              then log_info "Installing dependency %s %s.."
                            (PyStr dependency0 :: version_arg version)
              else log_info "Installing dependency %s.." [PyStr dependency0]);;
             go_on ← try_except_DependencyError
               ((if depends_truthy (depends d) then
                   install_children env settings (depends_list (depends d));;
                   reboot_vm env m image vm_visible
                 else mret tt);;
                run_dependency env dependency0 version settings;;
                mret true)
               (log_error "The dependency %s returned an error.."
                          [PyStr dependency0];;
                mret false);
             if go_on : bool
             then install_dependencies env m image vm_visible settings rest
             else mret tt
         | None => log_error "Unknown dependency %s.." [dependency]
         end)).
    { intros dependency version.
      destruct (lookup_name env dependency) as [[dependency0 d]|].
      - apply follows_bind.
        assert (Hlog : forall (Q : result unit -> phase -> Prop),
                   Q (Ok tt) GuestUp ->
                   follows GuestUp Q
                     (if truthy_str version
                      then log_info "Installing dependency %s %s.."
                                    (PyStr dependency0 :: version_arg version)
                      else log_info "Installing dependency %s.."
                                    [PyStr dependency0])).
        { intros Q HQ. destruct (truthy_str version); apply follows_log, HQ. }
        apply Hlog. apply follows_bind.
        eapply follows_mono; [|apply follows_loop_body].
        intros [[|]|x0] q Hq; simpl in *; try exact I.
        + subst q. exact IH.
        + apply follows_ret. exact I.
      - apply follows_log. exact I. }
    unfold unpack_pair.
    destruct x as [s|d0 version].
    + destruct s as [|a [|b [|? ?]]];
        first [apply follows_raise; exact I | apply follows_ret; apply Hnext].
    + apply follows_ret. apply Hnext.
Qed.

(** The reboot of the loop in general. Whatever the list of references,
    the registry and the failures of the collaborators, the events the
    dependency loop adds are in the order of [loop_step]: a shutdown of
    the guest is followed by the wait for power-off, a pause, the start
    of the VM and the wait for the host, with no agent call and no
    installer in between, and what follows the wait for the host is the
    installer of the parent, with no [ping()] before it. *)
Theorem dependency_loop_reboot_order (env : Env) (m : option string)
        (image : Image) (vm_visible : bool) (settings : gmap string string)
        (dependencies : list pyval) (w : World) :
  exists evs q,
    trace (install_dependencies env m image vm_visible settings dependencies
             w).2 = trace w ++ evs
    /\ run_protocol loop_step GuestUp evs = Some q.
Proof.
  destruct (follows_install_dependencies env m image vm_visible settings
              dependencies w) as (evs & q & Ht & Hr & _).
  exists evs, q. auto.
Qed.


(** ** The dependency loop, handed the references *)

Lemma trace_add_events evs w : trace (add_events evs w) = trace w ++ evs.
Proof.
  revert w. induction evs as [|e evs IH]; intros w; simpl.
  - symmetry. apply app_nil_r.
  - rewrite IH. simpl. rewrite <- app_assoc. reflexivity.
Qed.

Lemma contains_cut c s :
  PyStr.contains c s = true -> exists l r, PyStr.cut c s = Some (l, r).
Proof.
  induction s as [|a s IH]; simpl; [discriminate|].
  destruct (Ascii.eqb a c); simpl; [eauto|].
  intros H. destruct (IH H) as (l & r & ->). eauto.
Qed.

Lemma contains_cut_none c s :
  PyStr.contains c s = false -> PyStr.cut c s = None.
Proof.
  induction s as [|a s IH]; simpl; [reflexivity|].
  destruct (Ascii.eqb a c); simpl; [discriminate|].
  intros H. rewrite (IH H). reflexivity.
Qed.

Lemma run_dependency_ok env d v s w :
  no_faults env ->
  run_dependency env d v s w = (Ok tt, add_event (RunDependency d v s) w).
Proof.
  intros [Hr Hd]. unfold run_dependency. rewrite Hd, Hr. reflexivity.
Qed.

Lemma try_except_ok {A} (body handler : M A) w a w' :
  body w = (Ok a, w') -> try_except_DependencyError body handler w = (Ok a, w').
Proof. intros H. unfold try_except_DependencyError. rewrite H. reflexivity. Qed.

(** Without failures the children are installed one after the other, in
    the order of the declaration. *)
Lemma install_children_ok env settings depends :
  no_faults env ->
  Forall (fun c => is_Some (names env !! (child_ref c).1)) depends ->
  forall w,
    install_children env settings depends w
    = (Ok tt,
       add_events
         (List.map (fun c => RunDependency (child_ref c).1 (child_ref c).2
                                           settings) depends) w).
Proof.
  intros Hnf Hall. induction Hall as [|c rest [dd Hc] _ IH]; intros w; simpl.
  - reflexivity.
  - unfold child_ref in *. rewrite bind_eval.
    destruct (PyStr.contains ":" c) eqn:E.
    + destruct (contains_cut _ _ E) as (l & r & Hcut).
      rewrite Hcut in *. unfold split_pair, PyStr.split1. rewrite Hcut.
      simpl in Hc. rewrite !bind_eval, !mret_eval. cbv beta iota.
      rewrite ?mret_eval. cbv beta iota. rewrite Hc.
      rewrite bind_eval, run_dependency_ok by assumption. apply IH.
    + rewrite (contains_cut_none _ _ E) in *. simpl in Hc.
      rewrite mret_eval. cbv beta iota. rewrite Hc.
      rewrite bind_eval, run_dependency_ok by assumption. apply IH.
Qed.

(** An unknown name ends the loop: it is reported, nothing is run for
    it, and what follows it in the list plays no part. *)
Lemma dependency_loop_unknown env m image vm_visible settings x version rest w :
  names env !! x = None ->
  install_dependencies env m image vm_visible settings
    (PyTuple (PyStr x) version :: rest) w
  = (Ok tt, add_log (LogError "Unknown dependency %s.." [PyStr x]) w).
Proof.
  intros Hx. simpl. rewrite bind_eval, mret_eval. cbv beta iota.
  unfold lookup_name. rewrite Hx. reflexivity.
Qed.

(** A dependency without children whose installer returns is followed by
    the rest of the list. *)
Lemma dependency_loop_next env m image vm_visible settings a version d rest w :
  no_faults env ->
  names env !! a = Some d ->
  depends_truthy (depends d) = false ->
  exists l,
    install_dependencies env m image vm_visible settings
      (PyTuple (PyStr a) version :: rest) w
    = install_dependencies env m image vm_visible settings rest
        (add_event (RunDependency a version settings) (add_log l w)).
Proof.
  intros Hnf Ha Hd.
  exists (if truthy_str version
          then LogInfo "Installing dependency %s %s.."
                       (PyStr a :: version_arg version)
          else LogInfo "Installing dependency %s.." [PyStr a]).
  simpl. rewrite bind_eval, mret_eval. cbv beta iota.
  unfold lookup_name. rewrite Ha. rewrite bind_eval.
  replace ((if truthy_str version
            then log_info "Installing dependency %s %s.."
                          (PyStr a :: version_arg version)
            else log_info "Installing dependency %s.." [PyStr a]) w)
    with (Ok tt, add_log (if truthy_str version
                          then LogInfo "Installing dependency %s %s.."
                                       (PyStr a :: version_arg version)
                          else LogInfo "Installing dependency %s.." [PyStr a]) w)
    by (destruct (truthy_str version); reflexivity).
  cbv beta iota. rewrite bind_eval.
  erewrite try_except_ok; cycle 1.
  { rewrite Hd. rewrite bind_eval, mret_eval. cbv beta iota.
    rewrite bind_eval, run_dependency_ok by assumption. reflexivity. }
  reflexivity.
Qed.

(** A dependency whose installer raises [DependencyError] ends the loop:
    what follows it in the list plays no part. *)
Lemma dependency_loop_error env m image vm_visible settings a version d rest w :
  names env !! a = Some d ->
  depends_truthy (depends d) = false ->
  dependency_error env (length (trace w)) = true ->
  exists l,
    install_dependencies env m image vm_visible settings
      (PyTuple (PyStr a) version :: rest) w
    = (Ok tt,
       add_log (LogError "The dependency %s returned an error.." [PyStr a])
         (add_event (RunDependency a version settings) (add_log l w))).
Proof.
  intros Ha Hd He.
  exists (if truthy_str version
          then LogInfo "Installing dependency %s %s.."
                       (PyStr a :: version_arg version)
          else LogInfo "Installing dependency %s.." [PyStr a]).
  simpl. rewrite bind_eval, mret_eval. cbv beta iota.
  unfold lookup_name. rewrite Ha. rewrite bind_eval.
  replace ((if truthy_str version
            then log_info "Installing dependency %s %s.."
                          (PyStr a :: version_arg version)
            else log_info "Installing dependency %s.." [PyStr a]) w)
    with (Ok tt, add_log (if truthy_str version
                          then LogInfo "Installing dependency %s %s.."
                                       (PyStr a :: version_arg version)
                          else LogInfo "Installing dependency %s.." [PyStr a]) w)
    by (destruct (truthy_str version); reflexivity).
  cbv beta iota. rewrite bind_eval.
  unfold try_except_DependencyError.
  rewrite Hd. rewrite bind_eval, mret_eval. cbv beta iota.
  rewrite bind_eval. unfold run_dependency. simpl trace. rewrite He.
  reflexivity.
Qed.

(** A dependency with children: the children in their declared order,
    one reboot, then the dependency itself, and on to the rest. *)
Lemma dependency_loop_children_first env m image vm_visible settings b version
      d rest w :
  no_faults env ->
  names env !! b = Some d ->
  depends_truthy (depends d) = true ->
  Forall (fun c => is_Some (names env !! (child_ref c).1))
         (depends_list (depends d)) ->
  exists l,
    install_dependencies env m image vm_visible settings
      (PyTuple (PyStr b) version :: rest) w
    = install_dependencies env m image vm_visible settings rest
        (add_events
           (List.map (fun c => RunDependency (child_ref c).1 (child_ref c).2
                                             settings)
                     (depends_list (depends d))
            ++ [AgentCall (ipaddr image) (port image) Shutdown;
                Vm m WaitForState;
                Sleep 1;
                Vm m (StartVm vm_visible);
                WaitForHost (ipaddr image) (port image);
                RunDependency b version settings])
           (add_log l w)).
Proof.
  intros Hnf Hb Hd Hchildren.
  exists (if truthy_str version
          then LogInfo "Installing dependency %s %s.."
                       (PyStr b :: version_arg version)
          else LogInfo "Installing dependency %s.." [PyStr b]).
  simpl. rewrite bind_eval, mret_eval. cbv beta iota.
  unfold lookup_name. rewrite Hb. rewrite bind_eval.
  replace ((if truthy_str version
            then log_info "Installing dependency %s %s.."
                          (PyStr b :: version_arg version)
            else log_info "Installing dependency %s.." [PyStr b]) w)
    with (Ok tt, add_log (if truthy_str version
                          then LogInfo "Installing dependency %s %s.."
                                       (PyStr b :: version_arg version)
                          else LogInfo "Installing dependency %s.." [PyStr b]) w)
    by (destruct (truthy_str version); reflexivity).
  cbv beta iota. rewrite bind_eval.
  erewrite try_except_ok; cycle 1.
  { rewrite Hd. rewrite !bind_eval.
    rewrite install_children_ok by assumption. cbv beta iota.
    unfold reboot_vm. destruct Hnf as [Hr Hde].
    do 4 run_step Hr.
    unfold wait_for_host. rewrite call_ok by apply Hr. cbv beta iota.
    rewrite bind_eval, run_dependency_ok by (split; assumption).
    cbv beta iota. rewrite mret_eval. reflexivity. }
  cbv beta iota. f_equal. unfold add_events. rewrite fold_left_app. reflexivity.
Qed.

(** Handed the references of [A], without children, and of [B], with
    children that the registry knows, the loop runs [A], the children of
    [B] in their declared order, one reboot, and [B]. *)
Lemma dependency_loop_A_then_B env m image vm_visible settings a va da b vb db w :
  no_faults env ->
  names env !! a = Some da ->
  depends_truthy (depends da) = false ->
  names env !! b = Some db ->
  depends_truthy (depends db) = true ->
  Forall (fun c => is_Some (names env !! (child_ref c).1))
         (depends_list (depends db)) ->
  (install_dependencies env m image vm_visible settings
     [PyTuple (PyStr a) va; PyTuple (PyStr b) vb] w).1 = Ok tt
  /\ trace (install_dependencies env m image vm_visible settings
              [PyTuple (PyStr a) va; PyTuple (PyStr b) vb] w).2
     = trace w
       ++ RunDependency a va settings
          :: List.map (fun c => RunDependency (child_ref c).1 (child_ref c).2
                                              settings)
                      (depends_list (depends db))
       ++ [AgentCall (ipaddr image) (port image) Shutdown;
           Vm m WaitForState;
           Sleep 1;
           Vm m (StartVm vm_visible);
           WaitForHost (ipaddr image) (port image);
           RunDependency b vb settings].
Proof.
  intros Hnf Ha Hda Hb Hdb Hchildren.
  destruct (dependency_loop_next env m image vm_visible settings a va da
              [PyTuple (PyStr b) vb] w Hnf Ha Hda) as (l1 & ->).
  match goal with
  | |- context [install_dependencies _ _ _ _ _ _ ?w1] =>
      destruct (dependency_loop_children_first env m image vm_visible settings
                  b vb db [] w1 Hnf Hb Hdb Hchildren) as (l2 & ->)
  end.
  split; [reflexivity|].
  simpl. rewrite trace_add_events. simpl. rewrite <- app_assoc. reflexivity.
Qed.

(** ** [install] never reaches an installer *)

Lemma runs_no_run evs : Forall no_run evs -> runs evs = [].
Proof.
  induction 1 as [|e evs He _ IH]; simpl; [reflexivity|].
  destruct e; simpl in He; try contradiction; exact IH.
Qed.

(** C5. Line 270 binds [dependencies] to a new empty list before the
    loop that should read the requested tokens, so that loop reads the
    empty list: it returns no setting and no reference, the command does
    the same whatever was requested, and no installer is ever run. *)
Theorem install_discards_requested_tokens (env : Env) (fuel : nat)
        (name : string) (dependencies : list string) (vm_visible : bool)
        (w : World) :
  fetch_settings (S fuel) 0 ∅ [] w = (Ok (∅, []), w)
  /\ install env fuel name dependencies vm_visible w
     = install env fuel name [] vm_visible w
  /\ exists evs,
      trace (install env fuel name dependencies vm_visible w).2 = trace w ++ evs
      /\ runs evs = [].
Proof.
  split; [reflexivity|]. split; [reflexivity|].
  destruct (install_grows_by_no_run env fuel name dependencies vm_visible w)
    as (evs & Ht & Hp).
  exists evs. split; [exact Ht | apply runs_no_run, Hp].
Qed.

(** C3 at [install base A B], where [B] declares the children [C] and
    [D:1]: the command returns having run no installer, while the loop of
    lines 283-321, handed the two references, runs [A], the children, and
    then [B]. *)
Theorem install_A_B_runs_nothing :
  (install Sample.env 1 "base" ["A"; "B"] false Sample.world).1 = Ok tt
  /\ trace (install Sample.env 1 "base" ["A"; "B"] false Sample.world).2
     = [QueryImage "base";
        Vm (Some "base") CreateVm;
        Vm (Some "base") (OsType "win7x64");
        Vm (Some "base") (Cpus 1);
        Vm (Some "base") (Mouse "usbtablet");
        Vm (Some "base") (Ramsize 2048);
        Vm (Some "base") (AttachHd "/vmcloak/image/base.vdi" false);
        Vm (Some "base") DetachIso;
        Vm (Some "base") (Hostonly "82540EM" "vboxnet0");
        Vm (Some "base") (StartVm false);
        WaitForHost "192.168.56.2" 8000;
        AgentCall "192.168.56.2" 8000 Ping;
        AgentCall "192.168.56.2" 8000 Shutdown;
        Vm (Some "base") WaitForState;
        Vm (Some "base") RemoveHd;
        Vm (Some "base") (CompactHd "/vmcloak/image/base.vdi");
        Vm (Some "base") DeleteVm]
  /\ runs (trace (install_dependencies Sample.env (Some "base") Sample.base
                    false ∅ [PyTuple (PyStr "A") None; PyTuple (PyStr "B") None]
                    Sample.world).2)
     = [("A", None); ("C", None); ("D", Some "1"); ("B", None)].
Proof. repeat split; vm_compute; reflexivity. Qed.

(** C4 at [install base A X B], where [X] is not in the registry: the
    command returns having run no installer, not even that of [A], and
    logs nothing about [X], while the loop of lines 283-321, handed the
    three references, runs [A], reports [X] and stops. *)
Theorem install_A_X_B_runs_nothing :
  (install Sample.env 1 "base" ["A"; "X"; "B"] false Sample.world).1 = Ok tt
  /\ runs (trace (install Sample.env 1 "base" ["A"; "X"; "B"] false
                    Sample.world).2) = []
  /\ logged (install Sample.env 1 "base" ["A"; "X"; "B"] false Sample.world).2
     = []
  /\ runs (trace (install_dependencies Sample.env (Some "base") Sample.base
                    false ∅
                    [PyTuple (PyStr "A") None; PyTuple (PyStr "X") None;
                     PyTuple (PyStr "B") None] Sample.world).2)
     = [("A", None)]
  /\ logged (install_dependencies Sample.env (Some "base") Sample.base
               false ∅
               [PyTuple (PyStr "A") None; PyTuple (PyStr "X") None;
                PyTuple (PyStr "B") None] Sample.world).2
     = [LogInfo "Installing dependency %s.." [PyStr "A"];
        LogError "Unknown dependency %s.." [PyStr "X"]].
Proof. repeat split; vm_compute; reflexivity. Qed.

(** ** Further properties of the commands *)

(** X1. A name the repository does not hold is turned down by [clone],
    [install], [modify], [snapshot] and, for a target path in [.ova] or
    [.ovf], [export]: the command logs [Image not found], exits with
    status 1 and has done nothing but the lookup. *)
Theorem image_not_found (env : Env) (w : World) (name : string) :
  find_by_name name (images w) = None ->
  (forall outname, rejected_not_found name w (clone env name outname w))
  /\ (forall fuel dependencies vm_visible,
         rejected_not_found name w
           (install env fuel name dependencies vm_visible w))
  /\ (forall vm_visible, rejected_not_found name w (modify env name vm_visible w))
  /\ (forall vmname ipaddr resolution ramsize cpus hostname adapter vm_visible,
         rejected_not_found name w
           (snapshot env name vmname ipaddr resolution ramsize cpus hostname
                     adapter vm_visible w))
  /\ (forall filepath,
         PyStr.endswith_any [".ova"; ".ovf"] filepath = true ->
         rejected_not_found name w (export env name filepath w)).
Proof.
  intros Hfind.
  repeat split;
    try (unfold clone, install, modify, snapshot;
         rewrite bind_eval, query_image_eval, Hfind; reflexivity).
  all: unfold export; rewrite H; change (negb true) with false; cbv iota;
    rewrite bind_eval, query_image_eval, Hfind; reflexivity.
Qed.

Lemma image_not_found_witness :
  find_by_name "ghost" (images Sample.world) = None
  /\ (forall outname,
         rejected_not_found "ghost" Sample.world
           (clone Sample.env "ghost" outname Sample.world))
  /\ (forall fuel dependencies vm_visible,
         rejected_not_found "ghost" Sample.world
           (install Sample.env fuel "ghost" dependencies vm_visible
                    Sample.world))
  /\ (forall vm_visible,
         rejected_not_found "ghost" Sample.world
           (modify Sample.env "ghost" vm_visible Sample.world))
  /\ (forall vmname ipaddr resolution ramsize cpus hostname adapter vm_visible,
         rejected_not_found "ghost" Sample.world
           (snapshot Sample.env "ghost" vmname ipaddr resolution ramsize cpus
                     hostname adapter vm_visible Sample.world))
  /\ (forall filepath,
         PyStr.endswith_any [".ova"; ".ovf"] filepath = true ->
         rejected_not_found "ghost" Sample.world
           (export Sample.env "ghost" filepath Sample.world)).
Proof.
  split; [reflexivity|].
  apply (image_not_found Sample.env Sample.world "ghost"). reflexivity.
Defined.

(** X2. [init] turns a request down before it touches the file system or
    the hypervisor when the name is taken, when the machinery is not
    [virtualbox], or when no Windows variant is chosen: it exits with
    status 1 after one logged error, has done nothing but the lookup,
    and leaves both tables as they were. *)
Theorem init_rejects_before_work (env : Env) (name : string)
        (winxp win7x86 win7x64 win81x86 win81x64 win10x86 win10x64 : bool)
        (product : option string) (vm : string)
        (iso_mount serial_key : option string)
        (ip : string) (port : Z) (adapter netmask gateway dns : string)
        (cpus : Z) (ramsize : option Z) (tempdir resolution : string)
        (vm_visible debug verbose : bool) (w : World) :
  is_Some (find_by_name name (images w))
  \/ vm <> "virtualbox"
  \/ select_os winxp win7x86 win7x64 win81x86 win81x64 win10x86 win10x64
               ramsize = None ->
  let out :=
    init env name winxp win7x86 win7x64 win81x86 win81x64 win10x86 win10x64
         product vm iso_mount serial_key ip port adapter netmask gateway dns
         cpus ramsize tempdir resolution vm_visible debug verbose w in
  out.1 = Abort (Exit 1)
  /\ trace out.2 = trace w ++ [QueryImage name]
  /\ images out.2 = images w
  /\ snapshots out.2 = snapshots w
  /\ exists fmt args,
      logged out.2 = logged w ++ verbose_log verbose ++ [LogError fmt args].
Proof.
  intros H out. subst out. unfold init.
  rewrite bind_eval.
  replace ((if verbose then log_set_level_debug else mret tt) w)
    with (Ok tt, if verbose then add_log LogSetLevelDebug w else w)
    by (destruct verbose; reflexivity).
  cbv beta iota. rewrite bind_eval, query_image_eval.
  replace (images (if verbose then add_log LogSetLevelDebug w else w))
    with (images w) by (destruct verbose; reflexivity).
  destruct (find_by_name name (images w)) as [img|] eqn:Hfind.
  { destruct verbose; simpl; repeat split; eauto.
    all: eexists _, _; rewrite <- app_assoc; reflexivity. }
  destruct (String.eqb vm "virtualbox") eqn:Hvm.
  2:{ destruct verbose; simpl; repeat split; eauto.
      all: eexists _, _; rewrite <- app_assoc; reflexivity. }
  apply String.eqb_eq in Hvm.
  destruct H as [[x Hx]|[Hne|Hos]]; [discriminate | contradiction |].
  rewrite Hos.
  destruct verbose; simpl; repeat split; eauto.
  all: eexists _, _; rewrite <- app_assoc; reflexivity.
Qed.

Lemma init_rejects_before_work_witness :
  (is_Some (find_by_name "base" (images Sample.world))
   \/ "virtualbox" <> "virtualbox"
   \/ select_os false false true false false false false None = None)
  /\ let out :=
       init Sample.env "base" false false true false false false false
            None "virtualbox" None None "192.168.56.2" 8000 "vboxnet0"
            "255.255.255.0" "192.168.56.1" "8.8.8.8" 1 None "/tmp" "1024x768"
            false false true Sample.world in
     out.1 = Abort (Exit 1)
     /\ trace out.2 = trace Sample.world ++ [QueryImage "base"]
     /\ images out.2 = images Sample.world
     /\ snapshots out.2 = snapshots Sample.world
     /\ exists fmt args,
         logged out.2
         = logged Sample.world ++ verbose_log true ++ [LogError fmt args].
Proof.
  assert (H : is_Some (find_by_name "base" (images Sample.world))
              \/ "virtualbox" <> "virtualbox"
              \/ select_os false false true false false false false None = None)
    by (left; eexists; reflexivity).
  split; [exact H|].
  exact (init_rejects_before_work Sample.env "base" false false true false
           false false false None "virtualbox" None None "192.168.56.2" 8000
           "vboxnet0" "255.255.255.0" "192.168.56.1" "8.8.8.8" 1 None "/tmp"
           "1024x768" false false true Sample.world H).
Defined.

(** X3. Whatever flags are given, the variant [init] settles on is the
    first one set in the order of the [elif] chain, and there is none
    exactly when no flag is set; its [osversion] tag is one the handler
    chain of [install], [modify], [snapshot] and [export] maps back to
    the same handler; and the ram size is the one given when that is not
    zero, else 1024 for Windows XP and Windows 7 32-bit and 2048 for the
    others. *)
Theorem select_os_resolved
        (winxp win7x86 win7x64 win81x86 win81x64 win10x86 win10x64 : bool)
        (ramsize : option Z) :
  option_map (fun r => r.1.1)
             (select_os winxp win7x86 win7x64 win81x86 win81x64 win10x86
                        win10x64 ramsize)
  = List.hd_error
      (List.map snd
         (List.filter fst
            (elif_chain winxp win7x86 win7x64 win81x86 win81x64 win10x86
                        win10x64)))
  /\ forall h osversion ram,
      select_os winxp win7x86 win7x64 win81x86 win81x64 win10x86 win10x64
                ramsize = Some (h, osversion, ram) ->
      handler_of_osversion osversion = Some h
      /\ ram = or_int ramsize (match h with
                               | WindowsXP | Windows7x86 => 1024
                               | _ => 2048
                               end)
      /\ (forall given, ramsize = Some given -> given <> 0 -> ram = given).
Proof.
  split.
  - unfold select_os, elif_chain.
    destruct winxp, win7x86, win7x64, win81x86, win81x64, win10x86, win10x64;
      reflexivity.
  - intros h osversion ram H.
    assert (Hmain : handler_of_osversion osversion = Some h
                    /\ ram = or_int ramsize (match h with
                                             | WindowsXP | Windows7x86 => 1024
                                             | _ => 2048
                                             end)).
    { unfold select_os in H.
      destruct winxp, win7x86, win7x64, win81x86, win81x64, win10x86, win10x64;
        try discriminate H; injection H as <- <- <-; split; reflexivity. }
    destruct Hmain as (Hh & Hram).
    repeat split; try assumption.
    intros given -> Hne. rewrite Hram. simpl.
    destruct (Z.eqb_spec given 0); [contradiction | reflexivity].
Qed.

Lemma select_os_resolved_witness :
  select_os false false true false true false true (Some 512)
  = Some (Windows7x64, "win7x64", 512)
  /\ List.hd_error
       (List.map snd
          (List.filter fst
             (elif_chain false false true false true false true)))
     = Some Windows7x64
  /\ handler_of_osversion "win7x64" = Some Windows7x64
  /\ select_os false false false false false false false (Some 512) = None.
Proof.
  destruct (select_os_resolved false false true false true false true
              (Some 512)) as [Hfirst Hrest].
  destruct (Hrest Windows7x64 "win7x64" 512 eq_refl) as (Hh & _).
  split; [reflexivity|]. split; [symmetry; exact Hfirst|].
  split; [exact Hh | reflexivity].
Defined.

(** *** Outcomes *)

Lemma ensures_bind {A B} (F : World -> World -> Prop)
      (Q : World -> result B -> World -> Prop) (m : M A) (f : A -> M B) :
  (forall w w1 x, F w w1 -> Q w (Abort x) w1) ->
  (forall w w1 r w2, F w w1 -> Q w1 r w2 -> Q w r w2) ->
  preserves F m -> (forall a, ensures Q (f a)) -> ensures Q (m ≫= f).
Proof.
  intros Hab Hst Hm Hf w. rewrite bind_eval.
  specialize (Hm w). destruct (m w) as [[a|x] w1]; simpl in *.
  - eapply Hst; [exact Hm | apply Hf].
  - apply Hab. exact Hm.
Qed.

Lemma ensures_ret_bind {A B} (Q : World -> result B -> World -> Prop) (a : A)
      (f : A -> M B) :
  ensures Q (f a) -> ensures Q (mret a ≫= f).
Proof. intros H w. apply H. Qed.

Lemma ensures_exit {A} (Q : World -> result A -> World -> Prop) c :
  (forall w x, Q w (Abort x) w) -> ensures Q (exit c).
Proof. intros H w. apply H. Qed.

Lemma ensures_raise {A} (Q : World -> result A -> World -> Prop) e :
  (forall w x, Q w (Abort x) w) -> ensures Q (raise e).
Proof. intros H w. apply H. Qed.

Lemma ensures_out_of_fuel_bind {A B} (Q : World -> result B -> World -> Prop)
      (f : A -> M B) :
  (forall w x, Q w (Abort x) w) -> ensures Q (out_of_fuel ≫= f).
Proof. intros H w. apply H. Qed.

(** Through a command whose steps keep [F], down to the steps that do
    not. *)
Ltac ensures_chain Hab Hst Hleaf :=
  repeat lazymatch goal with
    | |- ensures _ (mret _ ≫= _) => apply ensures_ret_bind; cbv beta iota
    | |- ensures _ (out_of_fuel ≫= _) =>
        apply ensures_out_of_fuel_bind; exact Hleaf
    | |- ensures _ (_ ≫= _) =>
        eapply ensures_bind;
        [exact Hab | exact Hst | solve [preserves_auto] | intros ?]
    | |- ensures _ (match ?x with _ => _ end) => destruct x eqn:?
    | |- ensures _ (exit _) => apply ensures_exit; exact Hleaf
    | |- ensures _ (raise _) => apply ensures_raise; exact Hleaf
    end.

Lemma row_iff_returned_abort good w w1 x :
  same_tables w w1 -> row_iff_returned good w (Abort x) w1.
Proof.
  intros (Hi & Hs & _). split; [exact Hs|]. right. split; [discriminate | exact Hi].
Qed.

Lemma row_iff_returned_step good w w1 r w2 :
  same_tables w w1 -> row_iff_returned good w1 r w2 ->
  row_iff_returned good w r w2.
Proof.
  intros (Hi & Hs & _) (Hs2 & H). unfold row_iff_returned.
  rewrite <- Hi, <- Hs. split; [exact Hs2 | exact H].
Qed.

Lemma row_iff_returned_leaf good w x : row_iff_returned good w (Abort x) w.
Proof. split; [reflexivity|]. right. split; [discriminate | reflexivity]. Qed.

Lemma commit_add_image_row (good : Image -> Prop) env x :
  (forall i, good (set_id i x)) ->
  ensures (row_iff_returned good) (commit_add_image env x).
Proof.
  intros Hgood w. unfold commit_add_image. rewrite commit_eval.
  destruct (raises env _); simpl.
  - split; [reflexivity|]. right. split; [discriminate | reflexivity].
  - split; [reflexivity|]. left. split; [reflexivity|].
    eexists. split; [reflexivity|]. split; [reflexivity | apply Hgood].
Qed.

Lemma select_os_handler winxp win7x86 win7x64 win81x86 win81x64 win10x86
      win10x64 ramsize h osversion ram :
  select_os winxp win7x86 win7x64 win81x86 win81x64 win10x86 win10x64 ramsize
  = Some (h, osversion, ram) ->
  handler_of_osversion osversion = Some h.
Proof.
  unfold select_os. intros H.
  destruct winxp, win7x86, win7x64, win81x86, win81x64, win10x86, win10x64;
    try discriminate H; injection H as <- <- <-; reflexivity.
Qed.

(** X4. [init] adds its row if and only if it returns: a build that
    exits or raises, at whatever step, leaves both tables as they were,
    and one that returns has added exactly one row, with a new identity,
    the given name, mode ["normal"], the disk path
    [image_path/<name>.vdi] and an [osversion] the other commands have a
    handler for. *)
Theorem init_row_iff_returned (env : Env) (name : string)
        (winxp win7x86 win7x64 win81x86 win81x64 win10x86 win10x64 : bool)
        (product : option string) (vm : string)
        (iso_mount serial_key : option string)
        (ip : string) (port : Z) (adapter netmask gateway dns : string)
        (cpus : Z) (ramsize : option Z) (tempdir resolution : string)
        (vm_visible debug verbose : bool) (w : World) :
  row_iff_returned (built_row env name) w
    (init env name winxp win7x86 win7x64 win81x86 win81x64 win10x86 win10x64
          product vm iso_mount serial_key ip port adapter netmask gateway dns
          cpus ramsize tempdir resolution vm_visible debug verbose w).1
    (init env name winxp win7x86 win7x64 win81x86 win81x64 win10x86 win10x64
          product vm iso_mount serial_key ip port adapter netmask gateway dns
          cpus ramsize tempdir resolution vm_visible debug verbose w).2.
Proof.
  revert w.
  change (ensures (row_iff_returned (built_row env name))
    (init env name winxp win7x86 win7x64 win81x86 win81x64 win10x86 win10x64
          product vm iso_mount serial_key ip port adapter netmask gateway dns
          cpus ramsize tempdir resolution vm_visible debug verbose)).
  unfold init.
  ensures_chain (row_iff_returned_abort (built_row env name))
                (row_iff_returned_step (built_row env name))
                (row_iff_returned_leaf (built_row env name)).
  apply commit_add_image_row. intros i. repeat split.
  simpl. erewrite select_os_handler by eassumption. eexists. reflexivity.
Qed.

(** X5. [clone] adds its row if and only if it returns: when the lookup,
    the copy of the disk or the commit fails, both tables are as they
    were; when it returns, exactly one row was added, with a new
    identity, the new name, mode ["normal"] and the disk path
    [image_path/<outname>.vdi]. *)
Theorem clone_row_iff_returned (env : Env) (name outname : string) (w : World) :
  row_iff_returned (fresh_row env outname) w
    (clone env name outname w).1 (clone env name outname w).2.
Proof.
  revert w.
  change (ensures (row_iff_returned (fresh_row env outname))
                  (clone env name outname)).
  unfold clone.
  ensures_chain (row_iff_returned_abort (fresh_row env outname))
                (row_iff_returned_step (fresh_row env outname))
                (row_iff_returned_leaf (fresh_row env outname)).
  apply commit_add_image_row. intros k. repeat split.
Qed.

Lemma snapshot_iff_returned_abort s w w1 x :
  same_tables w w1 -> snapshot_iff_returned s w (Abort x) w1.
Proof.
  intros (Hi & Hs & _). split; [exact Hi|]. right. split; [discriminate | exact Hs].
Qed.

Lemma snapshot_iff_returned_step s w w1 r w2 :
  same_tables w w1 -> snapshot_iff_returned s w1 r w2 ->
  snapshot_iff_returned s w r w2.
Proof.
  intros (Hi & Hs & _) (Hi2 & H). unfold snapshot_iff_returned.
  rewrite <- Hi, <- Hs. split; [exact Hi2 | exact H].
Qed.

Lemma snapshot_iff_returned_leaf s w x : snapshot_iff_returned s w (Abort x) w.
Proof. split; [reflexivity|]. right. split; [discriminate | reflexivity]. Qed.

Lemma commit_add_snapshot_row env s :
  ensures (snapshot_iff_returned s) (commit_add_snapshot env s).
Proof.
  intros w. unfold commit_add_snapshot. rewrite commit_eval.
  destruct (raises env _); simpl.
  - split; [reflexivity|]. right. split; [discriminate | reflexivity].
  - split; [reflexivity|]. left. split; reflexivity.
Qed.

(** The outcome of [snapshot] on an image the repository holds. *)
Lemma snapshot_outcome (env : Env) (name vmname ipaddr : string)
        (resolution : option string) (ramsize cpus : option Z)
        (hostname : string) (adapter : option string) (vm_visible : bool)
        (w : World) (img : Image) :
  find_by_name name (images w) = Some img ->
  let out := snapshot env name vmname ipaddr resolution ramsize cpus hostname
                      adapter vm_visible w in
  let flipped := update_row (set_mode "multiattach" img) (images w) in
  let row := mkSnapshot (Some (next_id (List.map snapshot_id (snapshots w))))
                        (id img) vmname ipaddr (port img) hostname in
  (out.1 = Ok tt
   /\ images out.2 = flipped
   /\ snapshots out.2 = snapshots w ++ [row])
  \/ (out.1 <> Ok tt
      /\ snapshots out.2 = snapshots w
      /\ images out.2 = if raises env (length (trace w) + 1)
                        then images w else flipped).
Proof.
  intros Hfind out flipped row. subst out. unfold snapshot.
  rewrite bind_eval, query_image_eval, Hfind. cbv zeta.
  rewrite bind_eval. unfold commit_update. rewrite commit_eval.
  replace (length (trace (add_event (QueryImage name) w)))
    with (length (trace w) + 1)%nat by (simpl; rewrite length_app; reflexivity).
  destruct (raises env _).
  - right. split; [discriminate|]. split; reflexivity.
  - match goal with
    | |- context [ (?m ?w2).2 ] =>
        lazymatch type of w2 with
        | World =>
            assert (Hm : ensures
                           (snapshot_iff_returned
                              (mkSnapshot None (id img) vmname ipaddr (port img)
                                          hostname)) m);
            [ cbv beta | specialize (Hm w2);
                         set (r3 := (m w2).1) in *; set (w3 := (m w2).2) in *;
                         clearbody r3 w3 ]
        end
    end.
    + ensures_chain (snapshot_iff_returned_abort
                       (mkSnapshot None (id img) vmname ipaddr (port img)
                                   hostname))
                    (snapshot_iff_returned_step
                       (mkSnapshot None (id img) vmname ipaddr (port img)
                                   hostname))
                    (snapshot_iff_returned_leaf
                       (mkSnapshot None (id img) vmname ipaddr (port img)
                                   hostname)).
      apply commit_add_snapshot_row.
    + destruct Hm as (Hi & [[Hr Hs]|[Hr Hs]]); simpl in Hi, Hs.
      * left. repeat split; assumption.
      * right. repeat split; assumption.
Qed.

(** X6. [snapshot] records its snapshot if and only if it returns. When
    it does not return, the snapshot table is as it was, and the image is
    left locked all the same unless the commit of the mode itself failed:
    a snapshot that fails at the hypervisor or in the guest leaves an
    image in mode ["multiattach"] for which no snapshot row was made. *)
Theorem snapshot_row_iff_returned (env : Env) (name vmname ipaddr : string)
        (resolution : option string) (ramsize cpus : option Z)
        (hostname : string) (adapter : option string) (vm_visible : bool)
        (w : World) (img : Image) :
  find_by_name name (images w) = Some img ->
  let out := snapshot env name vmname ipaddr resolution ramsize cpus hostname
                      adapter vm_visible w in
  let flipped := update_row (set_mode "multiattach" img) (images w) in
  let row := mkSnapshot (Some (next_id (List.map snapshot_id (snapshots w))))
                        (id img) vmname ipaddr (port img) hostname in
  (out.1 = Ok tt
   /\ images out.2 = flipped
   /\ snapshots out.2 = snapshots w ++ [row])
  \/ (out.1 <> Ok tt
      /\ snapshots out.2 = snapshots w
      /\ images out.2 = if raises env (length (trace w) + 1)
                        then images w else flipped).
Proof.
  apply snapshot_outcome.
Qed.

Lemma snapshot_row_iff_returned_witness :
  find_by_name "base" (images Sample.world) = Some Sample.base
  /\ let out := snapshot Sample.env "base" "cuckoo2" "192.168.56.102" None None
                         None "desk-02" None false Sample.world in
     let flipped := update_row (set_mode "multiattach" Sample.base)
                               (images Sample.world) in
     let row := mkSnapshot
                  (Some (next_id (List.map snapshot_id (snapshots Sample.world))))
                  (id Sample.base) "cuckoo2" "192.168.56.102"
                  (port Sample.base) "desk-02" in
     (out.1 = Ok tt
      /\ images out.2 = flipped
      /\ snapshots out.2 = snapshots Sample.world ++ [row])
     \/ (out.1 <> Ok tt
         /\ snapshots out.2 = snapshots Sample.world
         /\ images out.2 = if raises Sample.env (length (trace Sample.world) + 1)
                           then images Sample.world else flipped).
Proof.
  split; [reflexivity|].
  apply (snapshot_row_iff_returned Sample.env "base" "cuckoo2" "192.168.56.102"
           None None None "desk-02" None false Sample.world Sample.base).
  reflexivity.
Defined.

(** X7. [install], [modify] and [export] never write to the repository:
    however they end, and whatever the collaborators do, the image and
    snapshot tables are the ones they found. *)
Theorem install_modify_export_read_only (env : Env) (fuel : nat)
        (name filepath : string) (dependencies : list string)
        (vm_visible : bool) (w : World) :
  (images (install env fuel name dependencies vm_visible w).2 = images w
   /\ snapshots (install env fuel name dependencies vm_visible w).2
      = snapshots w)
  /\ (images (modify env name vm_visible w).2 = images w
      /\ snapshots (modify env name vm_visible w).2 = snapshots w)
  /\ (images (export env name filepath w).2 = images w
      /\ snapshots (export env name filepath w).2 = snapshots w).
Proof.
  assert (Hi : preserves same_tables
                 (install env fuel name dependencies vm_visible)).
  { unfold install. preserves_auto.
    - eapply preserves_fetch_settings; typeclasses eauto.
    - eapply preserves_install_dependencies;
        [typeclasses eauto | intros; exact I]. }
  assert (Hm : preserves same_tables (modify env name vm_visible)).
  { unfold modify. preserves_auto. }
  assert (He : preserves same_tables (export env name filepath)).
  { unfold export. preserves_auto. }
  destruct (Hi w) as (? & ? & _), (Hm w) as (? & ? & _), (He w) as (? & ? & _).
  repeat split; assumption.
Qed.

(** *** What the commands ask of the hypervisor and the guest *)

Lemma deleted_last_abort w w1 x :
  grows_by not_delete w w1 -> deleted_last w (Abort x) w1.
Proof.
  intros (evs & Ht & Hp). exists evs. split; [exact Hp|].
  left. split; [exact Ht | discriminate].
Qed.

Lemma deleted_last_step w w1 r w2 :
  grows_by not_delete w w1 -> deleted_last w1 r w2 -> deleted_last w r w2.
Proof.
  intros (evs & Ht & Hp) (pre & Hpre & H).
  exists (evs ++ pre). split; [apply Forall_app; split; assumption|].
  destruct H as [[Ht2 Hr]|[n Ht2]].
  - left. split; [|exact Hr]. rewrite Ht2, Ht. symmetry. apply app_assoc.
  - right. exists n. rewrite Ht2, Ht. rewrite <- !app_assoc. reflexivity.
Qed.

Lemma deleted_last_leaf w x : deleted_last w (Abort x) w.
Proof.
  exists []. split; [constructor|]. left.
  split; [symmetry; apply app_nil_r | discriminate].
Qed.

Lemma delete_vm_last env n : ensures deleted_last (vbox env n DeleteVm).
Proof.
  intros w. exists []. split; [constructor|]. right. exists n.
  unfold vbox, call. destruct (raises env _); reflexivity.
Qed.

(** X8. In [install], [modify] and [export], [delete_vm] is only ever
    the last call: a run that stops earlier, at a rejection or at a
    failure of any call after [create_vm], never deletes the VM it
    registered, and a run that returns has ended with [delete_vm]. *)
Theorem delete_vm_only_last (env : Env) (fuel : nat) (name filepath : string)
        (dependencies : list string) (vm_visible : bool) (w : World) :
  deleted_last w (install env fuel name dependencies vm_visible w).1
               (install env fuel name dependencies vm_visible w).2
  /\ deleted_last w (modify env name vm_visible w).1
                  (modify env name vm_visible w).2
  /\ deleted_last w (export env name filepath w).1
                  (export env name filepath w).2.
Proof.
  split; [|split]; revert w.
  - change (ensures deleted_last
                    (install env fuel name dependencies vm_visible)).
    unfold install. destruct fuel as [|fuel]; simpl fetch_settings;
      ensures_chain deleted_last_abort deleted_last_step deleted_last_leaf.
    simpl install_dependencies.
    ensures_chain deleted_last_abort deleted_last_step deleted_last_leaf.
    apply delete_vm_last.
  - change (ensures deleted_last (modify env name vm_visible)).
    unfold modify.
    ensures_chain deleted_last_abort deleted_last_step deleted_last_leaf.
    apply delete_vm_last.
  - change (ensures deleted_last (export env name filepath)).
    unfold export.
    ensures_chain deleted_last_abort deleted_last_step deleted_last_leaf.
    apply delete_vm_last.
Qed.

(** X9. [clone] and [export] work on a machine that is never started:
    whatever happens, they issue no start of the VM, no wait for the
    host, no agent call, no installer and no pause. [init] and [modify]
    never call the agent and never run an installer. *)
Theorem guest_left_alone (env : Env) (name outname filepath : string)
        (winxp win7x86 win7x64 win81x86 win81x64 win10x86 win10x64 : bool)
        (product : option string) (vm : string)
        (iso_mount serial_key : option string)
        (ip : string) (port : Z) (adapter netmask gateway dns : string)
        (cpus : Z) (ramsize : option Z) (tempdir resolution : string)
        (vm_visible debug verbose : bool) (w : World) :
  grows_by offline w (clone env name outname w).2
  /\ grows_by offline w (export env name filepath w).2
  /\ grows_by no_agent w (modify env name vm_visible w).2
  /\ grows_by no_agent w
       (init env name winxp win7x86 win7x64 win81x86 win81x64 win10x86
             win10x64 product vm iso_mount serial_key ip port adapter netmask
             gateway dns cpus ramsize tempdir resolution vm_visible debug
             verbose w).2.
Proof.
  split; [|split; [|split]]; revert w.
  - change (preserves (grows_by offline) (clone env name outname)).
    unfold clone. preserves_auto.
    exists []. split; [symmetry; apply app_nil_r | constructor].
  - change (preserves (grows_by offline) (export env name filepath)).
    unfold export. preserves_auto.
  - change (preserves (grows_by no_agent) (modify env name vm_visible)).
    unfold modify. preserves_auto.
  - match goal with
    | |- forall w, grows_by _ w (?m w).2 =>
        change (preserves (grows_by no_agent) m)
    end.
    unfold init. preserves_auto.
    exists []. split; [symmetry; apply app_nil_r | constructor].
Qed.

(** X10. The mode in which a disk is attached: whatever happens,
    [install], [modify], [export] and [clone] never attach a disk in
    multiattach mode, and [snapshot] never attaches one in any other
    mode. *)
Theorem disk_attachment_mode (env : Env) (fuel : nat)
        (name outname filepath vmname ipaddr hostname : string)
        (dependencies : list string) (resolution adapter : option string)
        (ramsize cpus : option Z) (vm_visible : bool) (w : World) :
  grows_by (not_attached true) w
           (install env fuel name dependencies vm_visible w).2
  /\ grows_by (not_attached true) w (modify env name vm_visible w).2
  /\ grows_by (not_attached true) w (export env name filepath w).2
  /\ grows_by (not_attached true) w (clone env name outname w).2
  /\ grows_by (not_attached false) w
       (snapshot env name vmname ipaddr resolution ramsize cpus hostname
                 adapter vm_visible w).2.
Proof.
  split; [|split; [|split; [|split]]]; revert w.
  - change (preserves (grows_by (not_attached true))
                      (install env fuel name dependencies vm_visible)).
    unfold install. destruct fuel as [|fuel]; simpl fetch_settings.
    + preserves_auto; discriminate.
    + preserves_auto; try discriminate. simpl. preserves_auto.
  - change (preserves (grows_by (not_attached true))
                      (modify env name vm_visible)).
    unfold modify. preserves_auto; discriminate.
  - change (preserves (grows_by (not_attached true))
                      (export env name filepath)).
    unfold export. preserves_auto; discriminate.
  - change (preserves (grows_by (not_attached true)) (clone env name outname)).
    unfold clone. preserves_auto.
    exists []. split; [symmetry; apply app_nil_r | constructor].
  - match goal with
    | |- forall w, grows_by _ w (?m w).2 =>
        change (preserves (grows_by (not_attached false)) m)
    end.
    unfold snapshot. preserves_auto; try discriminate.
    all: exists []; split; [symmetry; apply app_nil_r | constructor].
Qed.

(** *** An image whose [osversion] no branch of the chain matches *)

Lemma ensures_unbound {B} (Q : World -> result B -> World -> Prop) env
      (f : Handler -> M B) :
  (forall w x, Q w (Abort x) w) -> ensures Q (read_h env None ≫= f).
Proof. intros H w. apply H. Qed.

Lemma stopped_within_abort P w w1 x :
  grows_by P w w1 -> stopped_within P w (Abort x) w1.
Proof. intros H. split; [discriminate | exact H]. Qed.

Lemma stopped_within_step P w w1 r w2 :
  grows_by P w w1 -> stopped_within P w1 r w2 -> stopped_within P w r w2.
Proof.
  intros (evs & Ht & Hp) (Hr & evs2 & Ht2 & Hp2). split; [exact Hr|].
  exists (evs ++ evs2). split; [|apply Forall_app; split; assumption].
  rewrite Ht2, Ht. symmetry. apply app_assoc.
Qed.

Lemma stopped_within_leaf P w x : stopped_within P w (Abort x) w.
Proof.
  split; [discriminate|]. exists []. split; [symmetry; apply app_nil_r | constructor].
Qed.

Lemma stopped_within_query (P : event -> Prop) name w r w2 :
  P (QueryImage name) ->
  stopped_within P (add_event (QueryImage name) w) r w2 ->
  stopped_within P w r w2.
Proof.
  intros HP. apply stopped_within_step. exists [QueryImage name].
  split; [reflexivity | repeat constructor; exact HP].
Qed.

(** Through a command whose steps add events among [P], down to the
    first one that does not. *)
Ltac stopped_chain P :=
  repeat lazymatch goal with
    | |- ensures _ (read_h _ None ≫= _) =>
        apply ensures_unbound; exact (stopped_within_leaf P)
    | |- ensures _ (mret _ ≫= _) => apply ensures_ret_bind; cbv beta iota
    | |- ensures _ (_ ≫= _) =>
        eapply ensures_bind;
        [ exact (stopped_within_abort P) | exact (stopped_within_step P)
        | solve [preserves_auto;
                 (exists []; split; [symmetry; apply app_nil_r | constructor])]
        | intros ? ]
    | |- ensures _ (match ?x with _ => _ end) => destruct x eqn:?
    | |- ensures _ (exit _) => apply ensures_exit; exact (stopped_within_leaf P)
    | |- ensures _ (raise _) => apply ensures_raise; exact (stopped_within_leaf P)
    end.

(** X11. An image whose [osversion] is none of the seven that the
    [if]/[elif] chain knows leaves [h] unbound. Whatever the collaborators
    do, [install], [modify], [export] and [snapshot] then never return,
    and get no further than the attachment of the disk: the VM is never
    given a network, never started, and never deleted. *)
Theorem unknown_osversion_stops_short (env : Env) (fuel : nat)
        (name filepath vmname ipaddr hostname : string)
        (dependencies : list string) (resolution adapter : option string)
        (ramsize cpus : option Z) (vm_visible : bool) (w : World)
        (image : Image) :
  find_by_name name (images w) = Some image ->
  handler_of_osversion (osversion image) = None ->
  stopped_within before_network w (install env fuel name dependencies vm_visible w).1
                (install env fuel name dependencies vm_visible w).2
  /\ stopped_within before_network w (modify env name vm_visible w).1
                   (modify env name vm_visible w).2
  /\ stopped_within before_network w (export env name filepath w).1
                   (export env name filepath w).2
  /\ stopped_within before_network w
       (snapshot env name vmname ipaddr resolution ramsize cpus hostname
                 adapter vm_visible w).1
       (snapshot env name vmname ipaddr resolution ramsize cpus hostname
                 adapter vm_visible w).2.
Proof.
  intros Hfind Hos. split; [|split; [|split]].
  - unfold install. rewrite bind_eval, query_image_eval, Hfind. cbv beta iota.
    rewrite Hos. apply (stopped_within_query before_network name); [exact I|].
    generalize (add_event (QueryImage name) w). clear w Hfind.
    match goal with
    | |- forall w, stopped_within before_network w (?m w).1 (?m w).2 =>
        change (ensures (stopped_within before_network) m)
    end.
    stopped_chain before_network.
  - unfold modify. rewrite bind_eval, query_image_eval, Hfind. cbv beta iota.
    rewrite Hos. apply (stopped_within_query before_network name); [exact I|].
    generalize (add_event (QueryImage name) w). clear w Hfind.
    match goal with
    | |- forall w, stopped_within before_network w (?m w).1 (?m w).2 =>
        change (ensures (stopped_within before_network) m)
    end.
    stopped_chain before_network.
  - unfold export. destruct (negb (PyStr.endswith_any _ filepath)).
    + split; [discriminate|]. exists [].
      split; [symmetry; apply app_nil_r | constructor].
    + rewrite bind_eval, query_image_eval, Hfind. cbv beta iota.
      rewrite Hos. apply (stopped_within_query before_network name); [exact I|].
      generalize (add_event (QueryImage name) w). clear w Hfind.
      match goal with
      | |- forall w, stopped_within before_network w (?m w).1 (?m w).2 =>
          change (ensures (stopped_within before_network) m)
      end.
      stopped_chain before_network.
  - unfold snapshot. rewrite bind_eval, query_image_eval, Hfind. cbv beta iota zeta.
    change (osversion (set_mode "multiattach" image)) with (osversion image).
    rewrite Hos. apply (stopped_within_query before_network name); [exact I|].
    generalize (add_event (QueryImage name) w). clear w Hfind.
    match goal with
    | |- forall w, stopped_within before_network w (?m w).1 (?m w).2 =>
        change (ensures (stopped_within before_network) m)
    end.
    stopped_chain before_network.
Qed.

Lemma unknown_osversion_stops_short_witness :
  find_by_name "vista" (images vista_world) = Some vista
  /\ handler_of_osversion (osversion vista) = None
  /\ stopped_within before_network vista_world
       (install Sample.env 1 "vista" ["A"] false vista_world).1
       (install Sample.env 1 "vista" ["A"] false vista_world).2.
Proof.
  split; [reflexivity|]. split; [reflexivity|].
  apply (unknown_osversion_stops_short Sample.env 1 "vista" "vista.ova"
           "cuckoo1" "192.168.56.101" "desk-01" ["A"] None None None None
           false vista_world vista); reflexivity.
Defined.

(** X12. With collaborators that do not fail, the run on such an image
    ends in the [UnboundLocalError] of [h] at the call of [m.hostonly]:
    the VM has been registered and the disk attached, and nothing undoes
    it. [snapshot] has by then committed the mode ["multiattach"], so the
    image is locked although no snapshot exists. *)
Theorem unknown_osversion_unbound_handler (env : Env) (fuel : nat)
        (name filepath vmname ipaddr hostname : string)
        (dependencies : list string) (resolution adapter : option string)
        (ramsize cpus : option Z) (vm_visible : bool) (w : World)
        (image : Image) :
  no_faults env ->
  find_by_name name (images w) = Some image ->
  mode image = "normal" ->
  handler_of_osversion (osversion image) = None ->
  PyStr.endswith_any [".ova"; ".ovf"] filepath = true ->
  let stuck :=
    (Abort (Raised (UnboundLocalError "h")),
     add_events (QueryImage name
                 :: set_up (Some name) image (Repository.cpus image)
                           (Repository.ramsize image) false
                 ++ [Vm (Some name) DetachIso]) w) in
  install env fuel name dependencies vm_visible w = stuck
  /\ modify env name vm_visible w = stuck
  /\ export env name filepath w = stuck
  /\ snapshot env name vmname ipaddr resolution ramsize cpus hostname adapter
              vm_visible w
     = (Abort (Raised (UnboundLocalError "h")),
        add_events
          (set_up (Some vmname) image (or_int cpus (Repository.cpus image))
                  (or_int ramsize (Repository.ramsize image)) true)
          (set_images (update_row (set_mode "multiattach" image) (images w))
             (add_events [QueryImage name; Commit] w))).
Proof.
  intros [Hr Hd] Hfind Hmode Hos Hsuffix stuck. subst stuck.
  split; [|split; [|split]].
  - unfold install. run_step Hr. rewrite Hfind, Hmode, Hos.
    change (negb ("normal" =? "normal")%string) with false. cbv iota.
    do 7 run_step Hr. reflexivity.
  - unfold modify. run_step Hr. rewrite Hfind, Hmode, Hos.
    change (negb ("normal" =? "normal")%string) with false. cbv iota.
    do 7 run_step Hr. reflexivity.
  - unfold export. rewrite Hsuffix. change (negb true) with false. cbv iota.
    run_step Hr. rewrite Hfind, Hmode, Hos.
    change (negb ("normal" =? "normal")%string) with false. cbv iota.
    do 7 run_step Hr. reflexivity.
  - unfold snapshot. run_step Hr. rewrite Hfind. cbv zeta.
    change (osversion (set_mode "multiattach" image)) with (osversion image).
    rewrite Hos. rewrite bind_eval. unfold commit_update.
    rewrite commit_eval, Hr. cbv beta iota.
    do 6 run_step Hr. reflexivity.
Qed.

Lemma unknown_osversion_unbound_handler_witness :
  (install Sample.env 1 "vista" ["A"] false vista_world).1
  = Abort (Raised (UnboundLocalError "h"))
  /\ trace (install Sample.env 1 "vista" ["A"] false vista_world).2
     = [QueryImage "vista";
        Vm (Some "vista") CreateVm;
        Vm (Some "vista") (OsType "vista");
        Vm (Some "vista") (Cpus 1);
        Vm (Some "vista") (Mouse "usbtablet");
        Vm (Some "vista") (Ramsize 1024);
        Vm (Some "vista") (AttachHd "/vmcloak/image/vista.vdi" false);
        Vm (Some "vista") DetachIso].
Proof.
  assert (Hnf : no_faults Sample.env) by (split; reflexivity).
  destruct (unknown_osversion_unbound_handler Sample.env 1 "vista" "vista.ova"
              "cuckoo1" "192.168.56.101" "desk-01" ["A"] None None None None
              false vista_world vista Hnf eq_refl eq_refl eq_refl eq_refl)
    as (Hi & _).
  rewrite Hi. split; reflexivity.
Defined.

(** *** Updating a clone *)

(** Without failures [clone] returns, having added its row. *)
Lemma clone_returns env name outname w src :
  no_faults env ->
  find_by_name name (images w) = Some src ->
  exists row w1,
    clone env name outname w = (Ok tt, w1)
    /\ images w1 = images w ++ [row]
    /\ Repository.name row = outname
    /\ mode row = "normal"
    /\ osversion row = osversion src.
Proof.
  intros [Hr Hd] Hsrc. unfold clone. run_step Hr. rewrite Hsrc.
  run_step Hr. unfold commit_add_image. rewrite commit_eval, Hr.
  eexists _, _. split; [reflexivity|]. simpl. repeat split; reflexivity.
Qed.

(** Without failures [install] and [modify] return on an image in mode
    ["normal"] that has a handler. *)
Lemma install_returns env fuel name dependencies vm_visible w image c :
  no_faults env ->
  find_by_name name (images w) = Some image ->
  mode image = "normal" ->
  handler_of_osversion (osversion image) = Some c ->
  (install env (S fuel) name dependencies vm_visible w).1 = Ok tt.
Proof.
  intros [Hr Hd] Hfind Hmode Hos. unfold install. run_step Hr.
  rewrite Hfind, Hmode, Hos.
  change (negb ("normal" =? "normal")%string) with false. cbv iota.
  do 7 run_step Hr. simpl read_h. do 5 run_step Hr.
  simpl fetch_settings. run_step Hr. simpl install_dependencies.
  do 5 run_step Hr. unfold vbox. rewrite call_ok by apply Hr. reflexivity.
Qed.

Lemma modify_returns env name vm_visible w image c :
  no_faults env ->
  find_by_name name (images w) = Some image ->
  mode image = "normal" ->
  handler_of_osversion (osversion image) = Some c ->
  (modify env name vm_visible w).1 = Ok tt.
Proof.
  intros [Hr Hd] Hfind Hmode Hos. unfold modify. run_step Hr.
  rewrite Hfind, Hmode, Hos.
  change (negb ("normal" =? "normal")%string) with false. cbv iota.
  do 7 run_step Hr. simpl read_h. do 9 run_step Hr.
  unfold vbox. rewrite call_ok by apply Hr. reflexivity.
Qed.

(** X13. The advice of the rejection, "Please vmcloak-clone it and
    update the clone", holds: after [clone] onto a name the repository
    does not hold, [install] and [modify] accept the clone and, without
    failures, return, whatever the mode of the image that was cloned. *)
Theorem clone_then_update (env : Env) (fuel : nat) (name outname : string)
        (dependencies : list string) (vm_visible : bool) (w : World)
        (src : Image) (c : os_class) :
  no_faults env ->
  find_by_name name (images w) = Some src ->
  find_by_name outname (images w) = None ->
  handler_of_osversion (osversion src) = Some c ->
  (clone env name outname w).1 = Ok tt
  /\ (install env (S fuel) outname dependencies vm_visible
              (clone env name outname w).2).1 = Ok tt
  /\ (modify env outname vm_visible (clone env name outname w).2).1 = Ok tt.
Proof.
  intros Hnf Hsrc Hnew Hos.
  destruct (clone_returns env name outname w src Hnf Hsrc)
    as (row & w1 & -> & Hi & Hn & Hm & Ho).
  assert (Hrow : find_by_name outname (images w1) = Some row)
    by (rewrite Hi; apply find_by_name_app_new; assumption).
  rewrite <- Ho in Hos. split; [reflexivity|]. split.
  - eapply install_returns; eassumption.
  - eapply modify_returns; eassumption.
Qed.

Lemma clone_then_update_witness :
  (clone Sample.env "frozen" "thawed" Sample.world).1 = Ok tt
  /\ (install Sample.env 1 "thawed" ["A"] false
              (clone Sample.env "frozen" "thawed" Sample.world).2).1 = Ok tt
  /\ (modify Sample.env "thawed" false
             (clone Sample.env "frozen" "thawed" Sample.world).2).1 = Ok tt.
Proof.
  apply (clone_then_update Sample.env 0 "frozen" "thawed" ["A"] false
           Sample.world Sample.frozen Windows7x64).
  - split; reflexivity.
  - reflexivity.
  - reflexivity.
  - reflexivity.
Defined.

(** *** Registering a snapshot *)

Lemma find_by_vmname_app_new n l s :
  find_by_vmname n l = None -> vmname s = n ->
  find_by_vmname n (l ++ [s]) = Some s.
Proof.
  unfold find_by_vmname. intros Hnone Hs.
  induction l as [|r l IH]; simpl in *.
  - rewrite Hs, String.eqb_refl. reflexivity.
  - destruct (String.eqb (vmname r) n); [discriminate | auto].
Qed.

(** X14. [snapshot] followed by [register] under the same VM name, a
    name no snapshot bore before: when [snapshot] returned, [register]
    hands [register_cuckoo] the address that [snapshot] gave the guest
    (not the address of the image), with the tags, the VM name and the
    Cuckoo directory; when [snapshot] did not return, however far it
    got, [register] finds no snapshot, reports it and exits with status
    1 without calling [register_cuckoo]. *)
Theorem register_after_snapshot (env : Env)
        (register_cuckoo : string -> string -> string -> string -> M unit)
        (name vmname ipaddr cuckoo tags : string)
        (resolution : option string) (ramsize cpus : option Z)
        (hostname : string) (adapter : option string) (vm_visible : bool)
        (w : World) :
  find_by_vmname vmname (snapshots w) = None ->
  let out := snapshot env name vmname ipaddr resolution ramsize cpus hostname
                      adapter vm_visible w in
  register register_cuckoo vmname cuckoo tags out.2
  = match out.1 with
    | Ok _ => register_cuckoo ipaddr tags vmname cuckoo out.2
    | Abort _ =>
        (Abort (Exit 1),
         add_log (LogError "Snapshot not found: %s" [PyStr vmname]) out.2)
    end.
Proof.
  intros Hnone out.
  assert (H : (out.1 = Ok tt
               /\ exists row, snapshots out.2 = snapshots w ++ [row]
                              /\ Repository.vmname row = vmname
                              /\ snapshot_ipaddr row = ipaddr)
              \/ (out.1 <> Ok tt /\ snapshots out.2 = snapshots w)).
  { destruct (find_by_name name (images w)) as [img|] eqn:Hfind.
    - destruct (snapshot_outcome env name vmname ipaddr resolution ramsize cpus
                  hostname adapter vm_visible w img Hfind)
        as [(Hr & _ & Hs)|(Hr & Hs & _)].
      + left. split; [exact Hr|]. eexists. split; [exact Hs|].
        split; reflexivity.
      + right. split; assumption.
    - right. subst out. unfold snapshot.
      rewrite bind_eval, query_image_eval, Hfind. split; [discriminate | reflexivity]. }
  clearbody out. destruct out as [r w']. simpl in *.
  unfold register. rewrite bind_eval. unfold gets. cbv beta iota.
  destruct H as [(-> & row & Hs & Hv & Hip)|(Hr & Hs)].
  - rewrite Hs, (find_by_vmname_app_new _ _ row Hnone Hv), Hip. reflexivity.
  - rewrite Hs, Hnone. destruct r as [[]|x]; [congruence | reflexivity].
Qed.

Lemma register_after_snapshot_witness :
  find_by_vmname "cuckoo2" (snapshots Sample.world) = None
  /\ register (fun _ _ _ _ => mret tt) "cuckoo2" "/opt/cuckoo" "office"
       (snapshot Sample.env "base" "cuckoo2" "192.168.56.102" None None None
                 "desk-02" None false Sample.world).2
     = (Ok tt,
        (snapshot Sample.env "base" "cuckoo2" "192.168.56.102" None None None
                  "desk-02" None false Sample.world).2).
Proof.
  split; [reflexivity|].
  rewrite (register_after_snapshot Sample.env (fun _ _ _ _ => mret tt) "base"
             "cuckoo2" "192.168.56.102" "/opt/cuckoo" "office" None None None
             "desk-02" None false Sample.world eq_refl).
  reflexivity.
Defined.

(** *** The loop that reads the arguments (lines 273-281) *)

(** An element ahead that is no setting keeps the loop from reaching
    the end of the list: it is visited, and what the loop appends for it
    is no setting either. *)
Lemma fetch_settings_goes_on fuel :
  forall i settings dependencies w j v,
    (i <= j)%nat -> dependencies !! j = Some v -> is_setting v = false ->
    forall out, (fetch_settings fuel i settings dependencies w).1 <> Ok out.
Proof.
  induction fuel as [|fuel IH]; intros i settings deps w j v Hij Hj Hv out;
    simpl; [discriminate|].
  destruct (deps !! i) as [d|] eqn:Hi.
  - assert (Hlen : (S i <= length deps)%nat) by (apply lookup_lt_Some in Hi; lia).
    assert (Hend : forall x, (deps ++ [x]) !! length deps = Some x)
      by (intros x; apply list_lookup_middle; reflexivity).
    destruct (py_in "." d && py_in "=" d)%bool eqn:G1.
    + destruct d as [s|d' ver]; simpl py_split_pair.
      * assert (i <> j).
        { intros ->. rewrite Hi in Hj. injection Hj as <-. simpl in Hv, G1.
          congruence. }
        unfold split_pair.
        destruct (PyStr.split1 "=" s) as [|l [|r [|]]]; try discriminate.
        rewrite bind_eval, mret_eval. cbv beta iota.
        apply (IH _ _ _ _ j v); [lia | assumption | assumption].
      * discriminate.
    + destruct (py_in ":" d) eqn:G2.
      * destruct d as [s|d' ver]; simpl py_split_pair; [|discriminate].
        unfold split_pair.
        destruct (PyStr.split1 ":" s) as [|l [|r [|]]]; try discriminate.
        rewrite bind_eval, mret_eval. cbv beta iota.
        eapply (IH _ _ _ _ (length deps)); [lia | apply Hend | reflexivity].
      * eapply (IH _ _ _ _ (length deps)); [lia | apply Hend | reflexivity].
  - apply lookup_ge_None in Hi. apply lookup_lt_Some in Hj. lia.
Qed.

(** Over settings alone the loop runs off the end of the list. *)
Lemma fetch_settings_of_settings dependencies w :
  forall n i settings,
    (length dependencies - i = n)%nat ->
    Forall (fun v => is_setting v = true) (drop i dependencies) ->
    exists settings',
      fetch_settings (S n) i settings dependencies w
      = (Ok (settings', dependencies), w).
Proof.
  induction n as [|n IH]; intros i settings Hn Hall; simpl.
  - rewrite (proj2 (lookup_ge_None dependencies i)) by lia. eauto.
  - destruct (dependencies !! i) as [d|] eqn:Hi;
      [|apply lookup_ge_None in Hi; lia].
    rewrite (drop_S _ _ _ Hi) in Hall. inversion Hall as [|? ? Hd Hrest]; subst.
    destruct d as [s|]; [|discriminate].
    change (py_in "." (PyStr s) && py_in "=" (PyStr s))%bool
      with (is_setting (PyStr s)).
    rewrite Hd. simpl in Hd.
    apply andb_true_iff in Hd. destruct Hd as [_ Heq].
    destruct (contains_cut _ _ Heq) as (l & r & Hcut).
    simpl py_split_pair. unfold split_pair, PyStr.split1. rewrite Hcut.
    rewrite bind_eval, mret_eval. cbv beta iota.
    apply IH; [lia | assumption].
Qed.

(** X15. The loop of lines 273-281 appends to the list it iterates
    over, and what it appends is visited in turn. Started at position
    [i] of a list, it ends normally if and only if everything from [i]
    on is a setting (a string with a ["."] and a ["="]), and then it
    leaves the list as it was: one dependency reference in the list and
    the loop raises or appends for ever. The empty list that line 270
    hands it is the only list of references it can return from. *)
Theorem fetch_settings_returns_iff (i : nat) (settings : gmap string string)
        (dependencies : list pyval) (w : World) :
  (exists fuel out,
      (fetch_settings fuel i settings dependencies w).1 = Ok out)
  <-> Forall (fun v => is_setting v = true) (drop i dependencies).
Proof.
  split.
  - intros (fuel & out & Hout). apply Forall_lookup. intros k v Hk.
    rewrite lookup_drop in Hk. destruct (is_setting v) eqn:Hv; [reflexivity|].
    exfalso.
    apply (fetch_settings_goes_on fuel i settings dependencies w (i + k)%nat v
             ltac:(lia) Hk Hv out Hout).
  - intros Hall.
    destruct (fetch_settings_of_settings dependencies w _ i settings eq_refl Hall)
      as (settings' & Heq).
    eexists _, _. rewrite Heq. reflexivity.
Qed.

(** *** The dependency loop on a list of references *)

Lemma log_announce_eval ref w :
  (if truthy_str ref.2
   then log_info "Installing dependency %s %s.."
                 (PyStr ref.1 :: version_arg ref.2)
   else log_info "Installing dependency %s.." [PyStr ref.1]) w
  = (Ok tt, add_log (announce ref) w).
Proof. unfold announce. destruct (truthy_str ref.2); reflexivity. Qed.

Lemma add_events_app evs1 evs2 w :
  add_events (evs1 ++ evs2) w = add_events evs2 (add_events evs1 w).
Proof. unfold add_events. apply fold_left_app. Qed.

(** A round for a reference the registry knows, without failures: the
    loop goes on with the rest of the list. *)
Lemma dependency_loop_round env m image vm_visible settings ref rest w :
  no_faults env -> known env ref ->
  install_dependencies env m image vm_visible settings (reference ref :: rest) w
  = install_dependencies env m image vm_visible settings rest
      (add_events (round env m image vm_visible settings ref)
                  (add_log (announce ref) w)).
Proof.
  intros Hnf (d & Hd & Hchildren). destruct ref as [a version].
  unfold round, children in *. simpl fst in *. simpl snd in *. rewrite Hd.
  unfold reference. simpl fst. simpl snd.
  simpl install_dependencies. rewrite bind_eval, mret_eval. cbv beta iota.
  unfold lookup_name. rewrite Hd. rewrite bind_eval.
  rewrite (log_announce_eval (a, version)). cbv beta iota. rewrite bind_eval.
  destruct (depends_truthy (depends d)) eqn:Ht.
  - erewrite try_except_ok; cycle 1.
    { rewrite !bind_eval.
      rewrite install_children_ok by assumption. cbv beta iota.
      unfold reboot_vm. destruct Hnf as [Hr Hde].
      do 4 run_step Hr.
      unfold wait_for_host. rewrite call_ok by apply Hr. cbv beta iota.
      rewrite bind_eval, run_dependency_ok by (split; assumption).
      cbv beta iota. rewrite mret_eval. reflexivity. }
    cbv beta iota. f_equal. rewrite <- app_assoc, add_events_app. reflexivity.
  - erewrite try_except_ok; cycle 1.
    { rewrite bind_eval, mret_eval. cbv beta iota.
      rewrite bind_eval, run_dependency_ok by assumption. reflexivity. }
    reflexivity.
Qed.

Lemma runs_app t1 t2 : runs (t1 ++ t2) = runs t1 ++ runs t2.
Proof.
  induction t1 as [|e t1 IH]; simpl; [reflexivity|].
  destruct e; simpl; rewrite ?IH; reflexivity.
Qed.

Lemma runs_children settings cs :
  runs (List.map (fun c => RunDependency (child_ref c).1 (child_ref c).2 settings)
                 cs)
  = List.map child_ref cs.
Proof.
  induction cs as [|c cs IH]; simpl; [reflexivity|].
  rewrite IH. destruct (child_ref c). reflexivity.
Qed.

Lemma runs_round env m image vm_visible settings ref :
  runs (round env m image vm_visible settings ref) = planned env ref.
Proof.
  unfold round, planned, children. destruct (names env !! ref.1) as [d|];
    [|reflexivity].
  rewrite runs_app. destruct (depends_truthy (depends d)).
  - rewrite runs_app, runs_children. simpl. rewrite app_nil_r.
    destruct ref. reflexivity.
  - destruct ref. reflexivity.
Qed.

(** The loop over references the registry knows, without failures, goes
    through all of them and on to what follows them in the list. *)
Lemma dependency_loop_known env m image vm_visible settings refs :
  no_faults env -> Forall (known env) refs ->
  forall rest w,
    exists w1,
      install_dependencies env m image vm_visible settings
        (List.map reference refs ++ rest) w
      = install_dependencies env m image vm_visible settings rest w1
      /\ install_dependencies env m image vm_visible settings
           (List.map reference refs) w = (Ok tt, w1)
      /\ runs (trace w1) = runs (trace w) ++ flat_map (planned env) refs
      /\ logged w1 = logged w ++ List.map announce refs.
Proof.
  intros Hnf Hall. induction Hall as [|ref refs Hk _ IH]; intros rest w.
  - exists w. simpl. rewrite !app_nil_r. repeat split; reflexivity.
  - simpl List.map. simpl app.
    rewrite !(dependency_loop_round env m image vm_visible settings ref)
      by assumption.
    destruct (IH rest
                (add_events (round env m image vm_visible settings ref)
                            (add_log (announce ref) w)))
      as (w1 & H1 & H2 & H3 & H4).
    exists w1. split; [exact H1|]. split; [exact H2|].
    rewrite H3, H4, trace_add_events. simpl trace. simpl logged.
    rewrite runs_app, runs_round. simpl flat_map.
    rewrite <- !app_assoc. split; [reflexivity|].
    assert (Hl : forall evs w0, logged (add_events evs w0) = logged w0).
    { clear. induction evs as [|e evs IHe]; intros w0; simpl; [reflexivity|].
      unfold add_events in *. simpl. rewrite IHe. reflexivity. }
    rewrite Hl. simpl. rewrite <- app_assoc. reflexivity.
Qed.

(** X16. The order the dependency loop realises. Over any list of
    references that the registry knows, children included, and without
    failures, the loop returns, having run for each reference in turn
    the children it declares, in the order of the declaration, and then
    the dependency itself; it has announced each reference once, in
    order. *)
Theorem dependency_loop_order (env : Env) (m : option string) (image : Image)
        (vm_visible : bool) (settings : gmap string string)
        (refs : list (string * option string)) (w : World) :
  no_faults env ->
  Forall (known env) refs ->
  let out := install_dependencies env m image vm_visible settings
               (List.map reference refs) w in
  out.1 = Ok tt
  /\ runs (trace out.2) = runs (trace w) ++ flat_map (planned env) refs
  /\ logged out.2 = logged w ++ List.map announce refs.
Proof.
  intros Hnf Hall out. subst out.
  destruct (dependency_loop_known env m image vm_visible settings refs Hnf Hall
              [] w) as (w1 & _ & -> & Hruns & Hlog).
  split; [reflexivity|]. split; assumption.
Qed.

Lemma dependency_loop_order_witness :
  (install_dependencies Sample.env (Some "base") Sample.base false ∅
     (List.map reference [("B", Some "2"); ("A", None); ("B", None)])
     Sample.world).1 = Ok tt
  /\ runs (trace (install_dependencies Sample.env (Some "base") Sample.base
                    false ∅
                    (List.map reference
                              [("B", Some "2"); ("A", None); ("B", None)])
                    Sample.world).2)
     = [("C", None); ("D", Some "1"); ("B", Some "2"); ("A", None);
        ("C", None); ("D", Some "1"); ("B", None)].
Proof.
  assert (Hnf : no_faults Sample.env) by (split; reflexivity).
  assert (HA : known Sample.env ("A", None)).
  { exists (mkDependency DependsNone). split; [reflexivity | constructor]. }
  assert (HB : forall v, known Sample.env ("B", v)).
  { intros v. exists (mkDependency (DependsList ["C"; "D:1"])).
    split; [reflexivity|]. repeat constructor; eexists; reflexivity. }
  assert (Hall : Forall (known Sample.env)
                        [("B", Some "2"); ("A", None); ("B", None)])
    by (repeat constructor; auto).
  destruct (dependency_loop_order Sample.env (Some "base") Sample.base false ∅
              [("B", Some "2"); ("A", None); ("B", None)] Sample.world Hnf Hall)
    as (Hr & Hruns & _).
  split; [exact Hr | exact Hruns].
Defined.

(** X17. The loop ends at the first reference the registry does not
    know: those before it are installed as if the list ended there, the
    unknown name is reported, the loop returns normally, and whatever
    follows it in the list is never looked at. *)
Theorem dependency_loop_stops_at_unknown (env : Env) (m : option string)
        (image : Image) (vm_visible : bool) (settings : gmap string string)
        (refs : list (string * option string)) (x : string)
        (version : option string) (rest : list pyval) (w : World) :
  no_faults env ->
  Forall (known env) refs ->
  names env !! x = None ->
  install_dependencies env m image vm_visible settings
    (List.map reference refs ++ reference (x, version) :: rest) w
  = (Ok tt,
     add_log (LogError "Unknown dependency %s.." [PyStr x])
       (install_dependencies env m image vm_visible settings
          (List.map reference refs) w).2).
Proof.
  intros Hnf Hall Hx.
  destruct (dependency_loop_known env m image vm_visible settings refs Hnf Hall
              (reference (x, version) :: rest) w) as (w1 & -> & -> & _).
  unfold reference. simpl. rewrite bind_eval, mret_eval. cbv beta iota.
  unfold lookup_name. rewrite Hx. reflexivity.
Qed.

Lemma dependency_loop_stops_at_unknown_witness :
  install_dependencies Sample.env (Some "base") Sample.base false ∅
    (List.map reference [("A", None)] ++ reference ("X", None)
     :: [reference ("B", None)]) Sample.world
  = (Ok tt,
     add_log (LogError "Unknown dependency %s.." [PyStr "X"])
       (install_dependencies Sample.env (Some "base") Sample.base false ∅
          (List.map reference [("A", None)]) Sample.world).2).
Proof.
  apply (dependency_loop_stops_at_unknown Sample.env (Some "base") Sample.base
           false ∅ [("A", None)] "X" None [reference ("B", None)] Sample.world).
  - split; reflexivity.
  - repeat constructor. exists (mkDependency DependsNone).
    split; [reflexivity | constructor].
  - reflexivity.
Defined.

(** The children the registry knows are installed one after the other;
    the loop over them goes on to the children that follow. *)
Lemma install_children_app env settings pre rest :
  no_faults env ->
  Forall (fun c => is_Some (names env !! (child_ref c).1)) pre ->
  forall w,
    install_children env settings (pre ++ rest) w
    = install_children env settings rest
        (add_events
           (List.map (fun c => RunDependency (child_ref c).1 (child_ref c).2
                                             settings) pre) w).
Proof.
  intros Hnf Hall. induction Hall as [|c pre [dd Hc] _ IH]; intros w;
    [reflexivity|].
  simpl app. simpl install_children.
  unfold child_ref in *. rewrite bind_eval.
  destruct (PyStr.contains ":" c) eqn:E.
  - destruct (contains_cut _ _ E) as (l & r & Hcut).
    rewrite Hcut in *. unfold split_pair, PyStr.split1. rewrite Hcut.
    simpl in Hc. rewrite !bind_eval, !mret_eval. cbv beta iota.
    rewrite ?mret_eval. cbv beta iota. rewrite Hc.
    rewrite bind_eval, run_dependency_ok by assumption. apply IH.
  - rewrite (contains_cut_none _ _ E) in *. simpl in Hc.
    rewrite mret_eval. cbv beta iota. rewrite Hc.
    rewrite bind_eval, run_dependency_ok by assumption. apply IH.
Qed.

Lemma install_children_unknown env settings c post w :
  names env !! (child_ref c).1 = None ->
  install_children env settings (c :: post) w
  = (Abort (Raised (KeyError (child_ref c).1)), w).
Proof.
  intros Hc. simpl install_children. unfold child_ref in *. rewrite bind_eval.
  destruct (PyStr.contains ":" c) eqn:E.
  - destruct (contains_cut _ _ E) as (l & r & Hcut).
    rewrite Hcut in *. unfold split_pair, PyStr.split1. rewrite Hcut.
    simpl in Hc. rewrite !bind_eval, !mret_eval. cbv beta iota.
    rewrite ?mret_eval. cbv beta iota. rewrite Hc. reflexivity.
  - rewrite (contains_cut_none _ _ E) in *. simpl in Hc.
    rewrite mret_eval. cbv beta iota. rewrite Hc. reflexivity.
Qed.

(** X18. A child the registry does not know is not reported the way an
    unknown dependency is: the lookup of line 307 raises [KeyError],
    which the [except DependencyError] of line 319 lets through. The
    children declared before it have been installed; the VM is not
    rebooted, the dependency itself is not installed, and the loop is
    left by the exception, so nothing after it in [install] is run. *)
Theorem unknown_child_raises (env : Env) (m : option string) (image : Image)
        (vm_visible : bool) (settings : gmap string string) (b : string)
        (version : option string) (d : Dependency) (pre : list string)
        (c : string) (post : list string) (rest : list pyval) (w : World) :
  no_faults env ->
  names env !! b = Some d ->
  depends_truthy (depends d) = true ->
  depends_list (depends d) = pre ++ c :: post ->
  Forall (fun c => is_Some (names env !! (child_ref c).1)) pre ->
  names env !! (child_ref c).1 = None ->
  install_dependencies env m image vm_visible settings
    (reference (b, version) :: rest) w
  = (Abort (Raised (KeyError (child_ref c).1)),
     add_events
       (List.map (fun c => RunDependency (child_ref c).1 (child_ref c).2
                                         settings) pre)
       (add_log (announce (b, version)) w)).
Proof.
  intros Hnf Hb Ht Hlist Hpre Hc. unfold reference. simpl fst. simpl snd.
  simpl install_dependencies. rewrite bind_eval, mret_eval. cbv beta iota.
  unfold lookup_name. rewrite Hb. rewrite bind_eval.
  rewrite (log_announce_eval (b, version)). cbv beta iota. rewrite bind_eval.
  unfold try_except_DependencyError. rewrite Ht, Hlist. rewrite !bind_eval.
  rewrite install_children_app by assumption.
  rewrite install_children_unknown by assumption. reflexivity.
Qed.

Lemma unknown_child_raises_witness :
  install_dependencies
    (mkEnv "/vmcloak/image"
           (<["E" := mkDependency (DependsList ["C"; "Y:3"; "D"])]>
              Sample.registry)
           (fun _ => Sample.win7) (fun _ => false) (fun _ => false)
           (fun _ => true) (fun _ => true) (fun _ _ => true) true
           (fun d => d) "")
    (Some "base") Sample.base false ∅ (reference ("E", None) :: []) Sample.world
  = (Abort (Raised (KeyError "Y")),
     add_events [RunDependency "C" None ∅]
                (add_log (LogInfo "Installing dependency %s.." [PyStr "E"])
                         Sample.world)).
Proof.
  apply (unknown_child_raises
           (mkEnv "/vmcloak/image"
                  (<["E" := mkDependency (DependsList ["C"; "Y:3"; "D"])]>
                     Sample.registry)
                  (fun _ => Sample.win7) (fun _ => false) (fun _ => false)
                  (fun _ => true) (fun _ => true) (fun _ _ => true) true
                  (fun d => d) "")
           (Some "base") Sample.base false ∅ "E" None
           (mkDependency (DependsList ["C"; "Y:3"; "D"])) ["C"] "Y:3" ["D"] []
           Sample.world).
  - split; reflexivity.
  - reflexivity.
  - reflexivity.
  - reflexivity.
  - repeat constructor. eexists. reflexivity.
  - reflexivity.
Defined.

(** The body of the loop for one element keeps a [DependencyError] in
    when the rest of the loop does. *)
Lemma loop_body_contained env m image vm_visible settings rest dependency
      version w :
  (forall w0,
      (install_dependencies env m image vm_visible settings rest w0).1
      <> Abort (Raised DependencyError)) ->
  (match lookup_name env dependency with
   | None => log_error "Unknown dependency %s.." [dependency]
   | Some (dependency, d) =>
       (if truthy_str version then
          log_info "Installing dependency %s %s.."
                   (PyStr dependency :: version_arg version)
        else
          log_info "Installing dependency %s.." [PyStr dependency]);;
       go_on ← try_except_DependencyError
         ((if depends_truthy (depends d) then
             install_children env settings (depends_list (depends d));;
             reboot_vm env m image vm_visible
           else mret tt);;
          run_dependency env dependency version settings;;
          mret true)
         (log_error "The dependency %s returned an error.."
                    [PyStr dependency];;
          mret false);
       if go_on : bool then
         install_dependencies env m image vm_visible settings rest
       else mret tt
   end w).1 <> Abort (Raised DependencyError).
Proof.
  intros IH. destruct (lookup_name env dependency) as [[a d]|]; [|discriminate].
  rewrite bind_eval, (log_announce_eval (a, version)). cbv beta iota.
  rewrite bind_eval. unfold try_except_DependencyError.
  match goal with
  | |- context [match ?body ?w1 with _ => _ end] =>
      lazymatch type of w1 with
      | World => destruct (body w1) as [[g|[code|e|]] w2]
      end
  end; try discriminate.
  - destruct g; [apply IH | discriminate].
  - destruct e; discriminate.
Qed.

(** X19. No [DependencyError] leaves the dependency loop, whatever the
    list it is handed and whichever calls fail: every installer is run
    inside the [try] of lines 293-321, whose handler reports the error
    and ends the loop. *)
Theorem dependency_error_contained (env : Env) (m : option string)
        (image : Image) (vm_visible : bool) (settings : gmap string string)
        (dependencies : list pyval) (w : World) :
  (install_dependencies env m image vm_visible settings dependencies w).1
  <> Abort (Raised DependencyError).
Proof.
  revert w. induction dependencies as [|x rest IH]; intros w;
    [discriminate|].
  simpl install_dependencies. rewrite bind_eval.
  destruct x as [s|d version]; simpl unpack_pair.
  - destruct s as [|a [|b [|c s]]]; try discriminate.
    rewrite mret_eval. cbv beta iota. apply loop_body_contained, IH.
  - rewrite mret_eval. cbv beta iota. apply loop_body_contained, IH.
Qed.

(** *** What [init] needs before it touches the hypervisor *)

(** X20. [init] asks nothing of the hypervisor before the installer
    medium is in place, the serial key is accepted and the ISO image is
    built: when one of the four fails, whatever else happens, the
    command does not return, no VM is created and nothing is committed. *)
Theorem init_needs_installer_medium (env : Env) (name : string)
        (winxp win7x86 win7x64 win81x86 win81x64 win10x86 win10x64 : bool)
        (product : option string) (vm : string)
        (iso_mount serial_key : option string)
        (ip : string) (port : Z) (adapter netmask gateway dns : string)
        (cpus : Z) (ramsize : option Z) (tempdir resolution : string)
        (vm_visible debug verbose : bool) (w : World)
        (h : os_class) (osversion : string) (ram : Z) :
  select_os winxp win7x86 win7x64 win81x86 win81x64 win10x86 win10x64 ramsize
  = Some (h, osversion, ram) ->
  (isdir env (or_str iso_mount (mount (handler env h)))
   && listdir_nonempty env (or_str iso_mount (mount (handler env h)))
   && serial_key_ok env h serial_key
   && buildiso_ok env)%bool = false ->
  stopped_within preparation w
    (init env name winxp win7x86 win7x64 win81x86 win81x64 win10x86 win10x64
          product vm iso_mount serial_key ip port adapter netmask gateway dns
          cpus ramsize tempdir resolution vm_visible debug verbose w).1
    (init env name winxp win7x86 win7x64 win81x86 win81x64 win10x86 win10x64
          product vm iso_mount serial_key ip port adapter netmask gateway dns
          cpus ramsize tempdir resolution vm_visible debug verbose w).2.
Proof.
  intros Hsel Hbad. revert w.
  match goal with
  | |- forall w, stopped_within _ w (?m w).1 (?m w).2 =>
      change (ensures (stopped_within preparation) m)
  end.
  unfold init. rewrite Hsel. cbv zeta.
  stopped_chain preparation.
  exfalso.
  repeat match goal with
         | Hx : negb _ = false |- _ => apply negb_false_iff in Hx
         end.
  repeat match goal with
         | Hx : _ = true |- _ => rewrite Hx in Hbad; clear Hx
         end.
  discriminate.
Qed.

Lemma init_needs_installer_medium_witness :
  stopped_within preparation Sample.world
    (init (mkEnv "/vmcloak/image" Sample.registry (fun _ => Sample.win7)
                 (fun _ => false) (fun _ => false)
                 (fun _ => true) (fun _ => false) (fun _ _ => true) true
                 (fun d => d) "")
          "fresh" false false true false false false false None "virtualbox"
          None None "192.168.56.2" 8000 "vboxnet0" "255.255.255.0"
          "192.168.56.1" "8.8.8.8" 1 None "/tmp" "1024x768" false false false
          Sample.world).1
    (init (mkEnv "/vmcloak/image" Sample.registry (fun _ => Sample.win7)
                 (fun _ => false) (fun _ => false)
                 (fun _ => true) (fun _ => false) (fun _ _ => true) true
                 (fun d => d) "")
          "fresh" false false true false false false false None "virtualbox"
          None None "192.168.56.2" 8000 "vboxnet0" "255.255.255.0"
          "192.168.56.1" "8.8.8.8" 1 None "/tmp" "1024x768" false false false
          Sample.world).2.
Proof.
  apply (init_needs_installer_medium
           (mkEnv "/vmcloak/image" Sample.registry (fun _ => Sample.win7)
                  (fun _ => false) (fun _ => false)
                  (fun _ => true) (fun _ => false) (fun _ _ => true) true
                  (fun d => d) "")
           "fresh" false false true false false false false None "virtualbox"
           None None "192.168.56.2" 8000 "vboxnet0" "255.255.255.0"
           "192.168.56.1" "8.8.8.8" 1 None "/tmp" "1024x768" false false false
           Sample.world Windows7x64 "win7x64" 2048).
  - reflexivity.
  - reflexivity.
Defined.

Lemma trace_add_event e w : trace (add_event e w) = trace w ++ [e].
Proof. reflexivity. Qed.

Lemma trace_add_log l w : trace (add_log l w) = trace w.
Proof. reflexivity. Qed.

Lemma trace_set_images l w : trace (set_images l w) = trace w.
Proof. reflexivity. Qed.

(** The trace at the end of a run without failures, event by event. *)
Ltac trace_of_run Hr Ht0 :=
  repeat run_step Hr;
  try (rewrite bind_eval; unfold raise; cbv beta iota);
  unfold exit, raise; cbv beta iota delta [snd];
  repeat first [ rewrite trace_set_images | rewrite trace_add_log
               | rewrite trace_add_event ];
  rewrite <- ?app_assoc; rewrite Ht0; reflexivity.

(** X21. Without exceptions from the collaborators, [init] removes the
    bootstrap directory whenever it has made it: on the way out when
    [h.buildiso] fails as well as on the way on when it succeeds. *)
Theorem init_removes_bootstrap (env : Env) (name : string)
        (winxp win7x86 win7x64 win81x86 win81x64 win10x86 win10x64 : bool)
        (product : option string) (vm : string)
        (iso_mount serial_key : option string)
        (ip : string) (port : Z) (adapter netmask gateway dns : string)
        (cpus : Z) (ramsize : option Z) (tempdir resolution : string)
        (vm_visible debug verbose : bool) (w : World) :
  no_faults env ->
  exists evs,
    trace (init env name winxp win7x86 win7x64 win81x86 win81x64 win10x86
                win10x64 product vm iso_mount serial_key ip port adapter
                netmask gateway dns cpus ramsize tempdir resolution vm_visible
                debug verbose w).2 = trace w ++ evs
    /\ (In (Mkdtemp tempdir) evs -> In (Rmtree (mkdtemp env tempdir)) evs).
Proof.
  intros [Hr Hd]. unfold init, split_resolution.
  rewrite bind_eval.
  replace ((if verbose then log_set_level_debug else mret tt) w)
    with (Ok tt, if verbose then add_log LogSetLevelDebug w else w)
    by (destruct verbose; reflexivity).
  cbv beta iota.
  assert (Ht0 : trace (if verbose then add_log LogSetLevelDebug w else w)
                = trace w) by (destruct verbose; reflexivity).
  generalize dependent (if verbose then add_log LogSetLevelDebug w else w).
  intros w0 Ht0.
  rewrite bind_eval, query_image_eval. cbv beta iota.
  destruct (find_by_name name (images w0)).
  { eexists. split; [trace_of_run Hr Ht0 | simpl; intuition discriminate]. }
  destruct (negb (vm =? "virtualbox")%string).
  { eexists. split; [trace_of_run Hr Ht0 | simpl; intuition discriminate]. }
  destruct (select_os _ _ _ _ _ _ _ _) as [[[h osversion] ram]|].
  2:{ eexists. split; [trace_of_run Hr Ht0 | simpl; intuition discriminate]. }
  cbv zeta.
  run_step Hr. destruct (negb (isdir env _)).
  { eexists. split; [trace_of_run Hr Ht0 | simpl; intuition discriminate]. }
  run_step Hr. destruct (negb (listdir_nonempty env _)).
  { eexists. split; [trace_of_run Hr Ht0 | simpl; intuition discriminate]. }
  run_step Hr. destruct (negb (serial_key_ok env _ _)).
  { eexists. split; [trace_of_run Hr Ht0 | simpl; intuition discriminate]. }
  run_step Hr. rewrite bind_eval.
  destruct (PyStr.split "x" resolution) as [|rw [|rh [|? ?]]];
    try solve [eexists; split; [trace_of_run Hr Ht0 | simpl; intuition discriminate]].
  rewrite mret_eval. cbv beta iota.
  match goal with
  | |- context [WriteSettings _ ?s] => generalize s; intros settings
  end.
  do 6 run_step Hr. destruct (negb (buildiso_ok env)).
  { eexists. split; [trace_of_run Hr Ht0|].
    intros _. simpl. repeat (first [left; reflexivity | right]). }
  do 18 run_step Hr.
  unfold commit_add_image. rewrite commit_eval, Hr.
  eexists. split; [trace_of_run Hr Ht0|].
  intros _. simpl. repeat (first [left; reflexivity | right]).
Qed.

Lemma init_removes_bootstrap_witness :
  exists evs,
    trace (init Sample.env "fresh" false false true false false false false
                None "virtualbox" None None "192.168.56.2" 8000 "vboxnet0"
                "255.255.255.0" "192.168.56.1" "8.8.8.8" 1 None "/tmp"
                "1024x768" false false false Sample.world).2
    = trace Sample.world ++ evs
    /\ (In (Mkdtemp "/tmp") evs -> In (Rmtree "/tmp/tmpAbCdEf") evs).
Proof.
  apply (init_removes_bootstrap Sample.env "fresh" false false true false false
           false false None "virtualbox" None None "192.168.56.2" 8000
           "vboxnet0" "255.255.255.0" "192.168.56.1" "8.8.8.8" 1 None "/tmp"
           "1024x768" false false false Sample.world).
  split; reflexivity.
Defined.
